(** * GOAT (salacious-code-reviews): the review workflow of [main.py]

    A shallow embedding of [src/main.py].  The script reads four environment
    variables, lists the changed files of a pull request, sends every
    reviewable patch to a chat-completion endpoint (one retry per file),
    and posts one review.

    Conventions of the embedding.
    - A Python [str] is a [string]; [len] is [String.length].
    - A value produced by [json.loads] or [ast.literal_eval] is a [value];
      a dict keeps its items in insertion order.
    - A function that may raise returns in the monad [M]: it threads the
      process state [world] (the global [openai.api_key] and the sequence of
      network calls made so far) and ends in [Ok] or in [Raise].
    - [log.*] calls only write to the CI log and are left out.
    - What is outside the repository is a parameter: the Python library
      functions ([Library]), the module [salacious_code_reviews.constants]
      ([Constants]), the process environment and the two remote services
      ([Outside]). *)

From stdpp Require Import base option list strings gmap.
From Stdlib Require Import ZArith Ascii String DecimalString Lia.

Local Open Scope string_scope.
Local Open Scope list_scope.
Local Open Scope Z_scope.

(** ** Python values *)

#[warnings="-register-all"]
Inductive value : Type :=
| VNone
| VBool (b : bool)
| VInt (z : Z)
| VFloat (repr : string)   (* a float, kept as its text: no arithmetic is done on it *)
| VStr (s : string)
| VList (items : list value)
| VDict (items : list (string * value)).

Inductive exn : Type :=
| SystemExit (code : Z)
| IndexError
| KeyError
| TypeError
| ValueError
| SyntaxError
| GithubException
| OpenAIError.            (* an openai error that is not an [openai.APIError] *)

Inductive result (A : Type) : Type :=
| Ok (a : A)
| Raise (e : exn).
Arguments Ok {A} a.
Arguments Raise {A} e.

(** ** The outside world *)

(** One file of [pr.get_files()]. *)
Record ChangedFile := { filename : string; patch : option string }.

(** [openai.ChatCompletion.create(model=..., messages=[system, user])]. *)
Record ChatRequest := { model : string; system_content : string; user_content : string }.

(** What the call gives back: [completion.choices[i].message.content]. *)
Inductive completion_outcome : Type :=
| Completion (choices : list (option string))
| APIError (user_message : string)
| OtherOpenAIError.

Inductive event : Type :=
| GetRepo (token full_name : string)
| GetPull (n : Z)
| GetFiles
| ChatCompletionCreate (key : option string) (req : ChatRequest)
| CreateReview (body ev : string) (comments : list value).

Record PullRequest := {
  number : Z;
  files : list ChangedFile;
  (* [false]: the platform rejects the review with a GithubException *)
  accepts_review : string -> string -> list value -> bool }.

Record Repository := {
  name : string;
  pulls : Z -> option PullRequest }.

Record Outside := {
  environ : gmap string string;
  github : string -> string -> option Repository;
  openai_chat : list event -> ChatRequest -> completion_outcome }.

(** What the script uses of Python's library. *)
Record Library := {
  (* [json.loads]; [None] when it raises JSONDecodeError *)
  json_loads : string -> option value;
  json_dumps : value -> string;
  ast_literal_eval : string -> result value;
  (* [int(s)]; [None] when it raises ValueError *)
  py_int : string -> option Z;
  (* [str(l)] of a list of str, as an f-string formats it *)
  py_str_of_list : list string -> string }.

(** [salacious_code_reviews.constants]. *)
Record Constants := { MAX_TOKENS : Z; PROMPT : string }.

(** ** The process state and the monad *)

Record world := { api_key : option string; trace : list event }.

Definition initial_world : world := {| api_key := None; trace := [] |}.

Definition M (A : Type) : Type := world -> result A * world.

#[global] Instance M_ret : MRet M := fun A a w => (Ok a, w).
#[global] Instance M_bind : MBind M := fun A B f m w =>
  match m w with
  | (Ok a, w') => f a w'
  | (Raise e, w') => (Raise e, w')
  end.

Definition raise {A} (e : exn) : M A := fun w => (Raise e, w).
Definition emit (ev : event) : M unit :=
  fun w => (Ok tt, {| api_key := api_key w; trace := trace w ++ [ev] |}).
Definition lift {A} (r : result A) : M A := fun w => (r, w).

(** [try: body except E: handler], for the exceptions [handles] selects. *)
Definition try_except {A} (body : M A) (handles : exn -> bool) (handler : M A) : M A :=
  fun w =>
    match body w with
    | (Raise e, w') => if handles e then handler w' else (Raise e, w')
    | r => r
    end.

(** ** Python built-ins the script relies on *)

Definition nl : string := String "010"%char EmptyString.

(** [str(x)] for [x] a str or [None]. *)
Definition py_str (x : option string) : string :=
  match x with Some s => s | None => "None" end.

(** [l[i]] on a list. *)
Definition list_getitem {A} (l : list A) (i : nat) : result A :=
  match l !! i with Some x => Ok x | None => Raise IndexError end.

(** [s.split(sep)] for a one-character separator. *)
Fixpoint str_split (sep : ascii) (s : string) : list string :=
  match s with
  | EmptyString => [EmptyString]
  | String c rest =>
      if Ascii.eqb c sep then EmptyString :: str_split sep rest
      else match str_split sep rest with
           | seg :: segs => String c seg :: segs
           | [] => [String c EmptyString]
           end
  end.

Fixpoint is_prefix (p s : string) : bool :=
  match p, s with
  | EmptyString, _ => true
  | String a p', String b s' => Ascii.eqb a b && is_prefix p' s'
  | String _ _, EmptyString => false
  end.

(** [p in s] on two strs. *)
Fixpoint is_substring (p s : string) : bool :=
  is_prefix p s ||
  match s with
  | EmptyString => false
  | String _ s' => is_substring p s'
  end.

Definition dict_get (k : string) (items : list (string * value)) : option value :=
  snd <$> List.find (fun kv => String.eqb (fst kv) k) items.

Definition is_str (k : string) (v : value) : bool :=
  match v with VStr s => String.eqb s k | _ => false end.

(** [k in v], with [k] a str. *)
Definition py_contains (k : string) (v : value) : result bool :=
  match v with
  | VDict items => Ok (match dict_get k items with Some _ => true | None => false end)
  | VList items => Ok (existsb (is_str k) items)
  | VStr s => Ok (is_substring k s)
  | VNone | VBool _ | VInt _ | VFloat _ => Raise TypeError
  end.

(** [v[k]], with [k] a str. *)
Definition py_getitem (k : string) (v : value) : result value :=
  match v with
  | VDict items =>
      match dict_get k items with Some x => Ok x | None => Raise KeyError end
  | _ => Raise TypeError
  end.

(** [[x for x in v]]. *)
Definition py_iter (v : value) : result (list value) :=
  match v with
  | VList items => Ok items
  | VDict items => Ok (map (fun kv => VStr (fst kv)) items)
  | VStr s => Ok (map (fun c => VStr (String c EmptyString)) (list_ascii_of_string s))
  | VNone | VBool _ | VInt _ | VFloat _ => Raise TypeError
  end.

(** ** The script *)

Record Github := { token : string }.

(** The dict [{"repo": [...], "pr": [...]}] of [get_repo_and_pr]. *)
Record repo_and_pr := { repo : list string; pr : list Z }.

Section Script.

Variable L : Library.
Variable C : Constants.
Variable O : Outside.

(** [os.getenv(k)] when it is truthy: set, and not the empty string. *)
Definition getenv_truthy (k : string) : option string :=
  match environ O !! k with
  | Some EmptyString | None => None
  | Some s => Some s
  end.

(** *** Calls to the two services *)

Definition Github_get_repo (gh_session : Github) (full_name : string) : M Repository :=
  emit (GetRepo (token gh_session) full_name);;
  match github O (token gh_session) full_name with
  | Some r => mret r
  | None => raise GithubException
  end.

Definition Repository_get_pull (r : Repository) (n : Z) : M PullRequest :=
  emit (GetPull n);;
  match pulls r n with
  | Some p => mret p
  | None => raise GithubException
  end.

Definition PullRequest_get_files (p : PullRequest) : M (list ChangedFile) :=
  emit GetFiles;; mret (files p).

Definition PullRequest_create_review
    (p : PullRequest) (body ev : string) (comments : list value) : M unit :=
  emit (CreateReview body ev comments);;
  if accepts_review p body ev comments then mret tt else raise GithubException.

Definition ChatCompletion_create (req : ChatRequest) : M completion_outcome :=
  fun w =>
    (Ok (openai_chat O (trace w) req),
     {| api_key := api_key w;
        trace := trace w ++ [ChatCompletionCreate (api_key w) req] |}).

(** *** [get_github_session], [set_openai_key], [get_repo_and_pr] *)

Definition get_github_session : M Github :=
  match getenv_truthy "GITHUB_TOKEN" with
  | None => raise (SystemExit 1)
  | Some t => mret {| token := t |}
  end.

Definition set_openai_key : M unit :=
  match getenv_truthy "OPENAI_API_KEY" with
  | None => raise (SystemExit 1)
  | Some k => fun w => (Ok tt, {| api_key := Some k; trace := trace w |})
  end.

Definition get_repo_and_pr : M repo_and_pr :=
  let repo_and_pr := {| repo := []; pr := [] |} in
  match getenv_truthy "GITHUB_REF" with
  | None => raise (SystemExit 1)
  | Some ref =>
      match getenv_truthy "GITHUB_REPOSITORY" with
      | None => raise (SystemExit 1)
      | Some repository =>
          let repo_and_pr :=
            {| repo := repo repo_and_pr ++ [repository]; pr := pr repo_and_pr |} in
          segment ← lift (list_getitem (str_split "/" ref) 2);
          match py_int L segment with
          | None => raise ValueError
          | Some n =>
              mret {| repo := repo repo_and_pr; pr := pr repo_and_pr ++ [n] |}
          end
      end
  end.

(** *** [submit_to_gpt] *)

Definition chat_request (code : string) : ChatRequest :=
  {| model := "gpt-3.5-turbo"; system_content := PROMPT C; user_content := code |}.

Definition submit_to_gpt (code : string) : M value :=
  outcome ← ChatCompletion_create (chat_request code);
  (* first [try]: an APIError is logged and leaves [completion] unbound *)
  completion ← match outcome with
               | Completion choices => mret (Some choices)
               | APIError _ => mret None
               | OtherOpenAIError => raise OpenAIError
               end;
  let review := VDict [] in
  (* second [try]: whatever is raised here is an [Exception] and is caught *)
  mret match completion with
       | None => review
       | Some [] => review
       | Some (content :: _) =>
           match json_loads L (py_str content) with
           | Some decoded => decoded
           | None => review
           end
       end.

(** *** [submit_review] *)

Definition is_GithubException (e : exn) : bool :=
  match e with GithubException => true | _ => false end.

Definition submit_review
    (comments : list string) (p : PullRequest) (skipped_files : list string) : M unit :=
  let review_body := "Salacious has reviewed your code, please see inline comments." in
  let review_body :=
    match skipped_files with
    | [] => review_body
    | _ :: _ =>
        review_body +:+ nl +:+ nl +:+ " List of skipped files:" +:+ nl
                    +:+ py_str_of_list L skipped_files
    end in
  match getenv_truthy "GITHUB_TOKEN" with
  | None => raise (SystemExit 1)
  | Some _ =>
      first ← lift (list_getitem comments 0);
      evaluated ← lift (ast_literal_eval L first);
      comments_object ← lift (py_iter evaluated);
      try_except
        (PullRequest_create_review p review_body "COMMENT" comments_object)
        is_GithubException
        (mret tt)
  end.

(** *** [do_code_review] *)

(** [type(item) == "str"]: a type object never equals a str. *)
Definition type_eq_str (item : ChangedFile) : bool := false.

Definition user_message_of (item : ChangedFile) (p : string) : string :=
  "filename: " +:+ filename item +:+ " ** " +:+ p.

(** The body of the [for] loop, on the two accumulators
    [(comments, skipped_files)]. *)
Definition review_item (item : ChangedFile) (acc : list string * list string)
  : M (list string * list string) :=
  let '(comments, skipped_files) := acc in
  if negb (type_eq_str item) then
    match patch item with
    | None => mret (comments, skipped_files)
    | Some p =>
        if Z.of_nat (String.length p) >? MAX_TOKENS C then
          mret (comments, skipped_files ++ [filename item])
        else
          diff_comment ← submit_to_gpt (user_message_of item p);
          has ← lift (py_contains "comments" diff_comment);
          if (has : bool) then
            c ← lift (py_getitem "comments" diff_comment);
            mret (comments ++ [json_dumps L c], skipped_files)
          else
            diff_comment ← submit_to_gpt (user_message_of item p);
            has ← lift (py_contains "comments" diff_comment);
            if (has : bool) then
              c ← lift (py_getitem "comments" diff_comment);
              mret (comments ++ [json_dumps L c], skipped_files)
            else
              mret (comments, skipped_files ++ [filename item])
    end
  else mret (comments, skipped_files).

Fixpoint review_items (changed_files : list ChangedFile) (acc : list string * list string)
  : M (list string * list string) :=
  match changed_files with
  | [] => mret acc
  | item :: rest => acc' ← review_item item acc; review_items rest acc'
  end.

Definition do_code_review (gh_session : Github) (rp : repo_and_pr) : M unit :=
  full_name ← lift (list_getitem (repo rp) 0);
  r ← Github_get_repo gh_session full_name;
  n ← lift (list_getitem (pr rp) 0);
  p ← Repository_get_pull r n;
  changed_files ← PullRequest_get_files p;
  acc ← review_items changed_files ([], []);
  submit_review (fst acc) p (snd acc).

(** *** [main] and the exit status of the process *)

Definition main : M unit :=
  set_openai_key;;
  gh_session ← get_github_session;
  rp ← get_repo_and_pr;
  do_code_review gh_session rp.

(** The interpreter exits with the code of a [SystemExit], with 1 on any
    other uncaught exception, with 0 otherwise. *)
Definition exit_status (r : result unit) : Z :=
  match r with
  | Ok _ => 0
  | Raise (SystemExit code) => code
  | Raise _ => 1
  end.

Definition run : result unit * world := main initial_world.

End Script.

(** ** The Diff Filter of the specification

    The script has no filter function: the classification is inlined in
    the loop body.  This definition follows the words of the specification
    (section 4.1) and is compared with [review_item] below. *)

Inductive Classification : Type := Reviewable | SkippedEmpty | SkippedTooLarge.

Definition diff_filter (C : Constants) (item : ChangedFile) : Classification :=
  match patch item with
  | None => SkippedEmpty
  | Some p =>
      if Z.of_nat (String.length p) <=? MAX_TOKENS C then Reviewable
      else SkippedTooLarge
  end.

(** ** Observations on a run *)

Definition is_chat_call (ev : event) : bool :=
  match ev with ChatCompletionCreate _ _ => true | _ => false end.

(** How many times the completion endpoint has been called. *)
Definition chat_calls (w : world) : nat :=
  List.length (List.filter is_chat_call (trace w)).

(** The inline comments of the reviews submitted so far, oldest first. *)
Definition submitted_comments (w : world) : list (list value) :=
  omap (fun ev => match ev with CreateReview _ _ cs => Some cs | _ => None end) (trace w).

(** The Requester failed: ["comments" in diff_comment] is [False]. *)
Definition no_comments (v : value) : Prop := py_contains "comments" v = Ok false.

(** The Requester succeeded with the comments [c]. *)
Definition has_comments (v c : value) : Prop :=
  exists items, v = VDict items /\ dict_get "comments" items = Some c.

(** What the specification (section 4.4) asks the Submitter to post: the
    accumulated batches, each deserialised the way the script deserialises
    the first one, concatenated into one flat list. *)
Fixpoint flatten_batches (L : Library) (batches : list string) : result (list value) :=
  match batches with
  | [] => Ok []
  | batch :: rest =>
      match ast_literal_eval L batch with
      | Raise e => Raise e
      | Ok evaluated =>
          match py_iter evaluated, flatten_batches L rest with
          | Ok items, Ok more => Ok (items ++ more)
          | Raise e, _ | Ok _, Raise e => Raise e
          end
      end
  end.

(** The variables [main] needs, in the order it reads them. *)
Definition required_variables : list string :=
  ["OPENAI_API_KEY"; "GITHUB_TOKEN"; "GITHUB_REF"; "GITHUB_REPOSITORY"].

(** What happened to one changed file: its comments were appended, its
    name was appended to the skip list, or neither. *)
Inductive Outcome : Type := Accepted | Skipped | Ignored.

Definition Outcome_eqb (a b : Outcome) : bool :=
  match a, b with
  | Accepted, Accepted | Skipped, Skipped | Ignored, Ignored => true
  | _, _ => false
  end.

(** The files tagged [o], in order. *)
Fixpoint tagged (o : Outcome) (changed : list ChangedFile) (tags : list Outcome)
  : list ChangedFile :=
  match changed, tags with
  | f :: changed', t :: tags' =>
      if Outcome_eqb t o then f :: tagged o changed' tags' else tagged o changed' tags'
  | _, _ => []
  end.

(** The tag fits the file: a file is ignored exactly when it has no patch,
    and a patch over the limit is never accepted. *)
Definition tag_fits (C : Constants) (f : ChangedFile) (t : Outcome) : Prop :=
  (t = Ignored <-> patch f = None) /\
  (t = Accepted -> diff_filter C f = Reviewable) /\
  (diff_filter C f = SkippedTooLarge -> t = Skipped).

(** ** Further observations *)

(** The world after the calls [evs] have been made. *)
Definition extend (w : world) (evs : list event) : world :=
  {| api_key := api_key w; trace := trace w ++ evs |}.

(** The loop body sends the file to the Requester: it has a patch, and
    the patch is not over the limit. *)
Definition is_reviewable (C : Constants) (item : ChangedFile) : bool :=
  match patch item with
  | Some p => negb (Z.of_nat (String.length p) >? MAX_TOKENS C)
  | None => false
  end.

Definition has_patch (item : ChangedFile) : bool :=
  match patch item with Some _ => true | None => false end.

(** [ev] is a completion request, made with [key], for a file of
    [changed] whose patch is within the limit; the user message carries
    the name and the patch of that file. *)
Definition request_for
    (C : Constants) (key : option string) (changed : list ChangedFile) (ev : event) : Prop :=
  exists (item : ChangedFile) (p : string),
    item ∈ changed /\ patch item = Some p /\
    Z.of_nat (String.length p) <= MAX_TOKENS C /\
    ev = ChatCompletionCreate key (chat_request C (user_message_of item p)).

(** A completion request carries the key [key]; other calls are not
    concerned. *)
Definition carries_key (key : string) (ev : event) : Prop :=
  match ev with
  | ChatCompletionCreate k _ => k = Some key
  | _ => True
  end.

Definition is_create_review (ev : event) : bool :=
  match ev with CreateReview _ _ _ => true | _ => false end.

(** The character [c] does not occur in [s]. *)
Fixpoint free_of (c : ascii) (s : string) : bool :=
  match s with
  | EmptyString => true
  | String a rest => negb (Ascii.eqb a c) && free_of c rest
  end.

(** The first sentence of every review body. *)
Definition fixed_body : string :=
  "Salacious has reviewed your code, please see inline comments.".

(** The world once [set_openai_key] has run: the key is set, nothing has
    been sent. *)
Definition started (key : string) : world := {| api_key := Some key; trace := [] |}.

(** What one more file does: the calls it adds, how it may end, and what
    it appends. *)
Record item_effect (L : Library) (C : Constants) (O : Outside)
    (item : ChangedFile) (acc : list string * list string) (w : world)
    (calls : list event) : Prop := {
  effect_world : snd (review_item L C O item acc w) = extend w calls;
  effect_requests : Forall (request_for C (api_key w) [item]) calls;
  effect_at_most : (List.length calls <= if is_reviewable C item then 2 else 0)%nat;
  effect_at_least : forall acc', fst (review_item L C O item acc w) = Ok acc' ->
    ((if is_reviewable C item then 1 else 0) <= List.length calls)%nat;
  effect_raises : forall e, fst (review_item L C O item acc w) = Raise e ->
    e = TypeError \/ e = OpenAIError;
  effect_appends : forall acc', fst (review_item L C O item acc w) = Ok acc' ->
    exists batches names,
      acc' = (fst acc ++ batches, snd acc ++ names) /\
      (List.length batches + List.length names
       = if has_patch item then 1 else 0)%nat /\
      (names = [] \/ names = [filename item]) }.

(** ** A reference library, for running the script on examples

    An executable stand-in for the Python library.  [dumps] writes what
    [json.dumps] writes with its default separators.  The two readers are
    its inverse on a finite table of sample values: a text is decoded when
    it is the serialisation of a sample, and is rejected otherwise, so they
    agree with [json.loads] and [ast.literal_eval] on the serialised samples
    and on texts that are no JSON at all.  [py_int] reads what [int] reads
    of a str of 8-bit characters; [py_str_of_list] is exact on printable
    ASCII names. *)

Module Reference.

Definition dq : string := String "034"%char EmptyString.
Definition backslash : string := String "092"%char EmptyString.

Definition hex_digit (n : nat) : string :=
  String.substring n 1 "0123456789abcdef".

Definition hex2 (n : nat) : string :=
  hex_digit (n / 16) +:+ hex_digit (n mod 16).

Definition json_escape_char (c : ascii) : string :=
  let n := nat_of_ascii c in
  if Ascii.eqb c "034" then backslash +:+ dq
  else if Ascii.eqb c "092" then backslash +:+ backslash
  else if Ascii.eqb c "010" then backslash +:+ "n"
  else if Ascii.eqb c "013" then backslash +:+ "r"
  else if Ascii.eqb c "009" then backslash +:+ "t"
  else if Ascii.eqb c "008" then backslash +:+ "b"
  else if Ascii.eqb c "012" then backslash +:+ "f"
  else if ((32 <=? n) && (n <=? 126))%nat then String c EmptyString
  else backslash +:+ "u00" +:+ hex2 n.

Fixpoint json_escape (s : string) : string :=
  match s with
  | EmptyString => EmptyString
  | String c rest => json_escape_char c +:+ json_escape rest
  end.

Definition json_string (s : string) : string := dq +:+ json_escape s +:+ dq.

Fixpoint dumps (v : value) : string :=
  match v with
  | VNone => "null"
  | VBool true => "true"
  | VBool false => "false"
  | VInt z => NilZero.string_of_int (Z.to_int z)
  | VFloat repr => repr
  | VStr s => json_string s
  | VList items =>
      "[" +:+ String.concat ", " (map dumps items) +:+ "]"
  | VDict items =>
      "{" +:+ String.concat ", "
                (map (fun kv => json_string (fst kv) +:+ ": " +:+ dumps (snd kv)) items)
          +:+ "}"
  end.

Definition decode_from (samples : list value) (text : string) : option value :=
  List.find (fun v => String.eqb (dumps v) text) samples.

(** The serialisation of [v] is also a Python literal with the same
    value: it holds no [null], [true] or [false]. *)
Fixpoint python_literal (v : value) : bool :=
  match v with
  | VNone | VBool _ => false
  | VInt _ | VFloat _ | VStr _ => true
  | VList items => forallb python_literal items
  | VDict items => forallb (fun kv => python_literal (snd kv)) items
  end.

Definition literal_eval_from (samples : list value) (text : string) : result value :=
  match decode_from samples text with
  | Some v => if python_literal v then Ok v else Raise ValueError
  | None => Raise SyntaxError
  end.

Definition is_space (c : ascii) : bool :=
  let n := nat_of_ascii c in
  ((9 <=? n) && (n <=? 13) || (28 <=? n) && (n <=? 32) || (n =? 133) || (n =? 160))%nat.

Fixpoint lstrip (s : string) : string :=
  match s with
  | String c rest => if is_space c then lstrip rest else s
  | EmptyString => EmptyString
  end.

Definition strip (s : string) : string :=
  String.rev (lstrip (String.rev (lstrip s))).

Definition digit_of (c : ascii) : option Z :=
  let n := nat_of_ascii c in
  if ((48 <=? n) && (n <=? 57))%nat then Some (Z.of_nat n - 48) else None.

(** Decimal digits, single underscores allowed between two digits. *)
Fixpoint digits_value (acc : Z) (after_digit : bool) (s : string) : option Z :=
  match s with
  | EmptyString => if after_digit then Some acc else None
  | String c rest =>
      match digit_of c with
      | Some d => digits_value (10 * acc + d) true rest
      | None =>
          if Ascii.eqb c "_" && after_digit then digits_value acc false rest
          else None
      end
  end.

Definition int_of_str (s : string) : option Z :=
  match strip s with
  | String "-" rest => Z.opp <$> digits_value 0 false rest
  | String "+" rest => digits_value 0 false rest
  | body => digits_value 0 false body
  end.

Definition repr_escape_char (quote c : ascii) : string :=
  let n := nat_of_ascii c in
  if Ascii.eqb c "092" then backslash +:+ backslash
  else if Ascii.eqb c quote then backslash +:+ String c EmptyString
  else if Ascii.eqb c "010" then backslash +:+ "n"
  else if Ascii.eqb c "013" then backslash +:+ "r"
  else if Ascii.eqb c "009" then backslash +:+ "t"
  else if ((n <? 32) || (n =? 127))%nat then backslash +:+ "x" +:+ hex2 n
  else String c EmptyString.

Fixpoint repr_escape (quote : ascii) (s : string) : string :=
  match s with
  | EmptyString => EmptyString
  | String c rest => repr_escape_char quote c +:+ repr_escape quote rest
  end.

(** [repr(s)]: single quotes, unless [s] holds one and no double quote. *)
Definition repr_str (s : string) : string :=
  let quote : ascii :=
    if is_substring "'" s && negb (is_substring dq s) then "034"%char else "'"%char in
  String quote (repr_escape quote s) +:+ String quote EmptyString.

Definition str_of_list (l : list string) : string :=
  "[" +:+ String.concat ", " (map repr_str l) +:+ "]".

Definition library (samples : list value) : Library :=
  {| json_loads := decode_from samples;
     json_dumps := dumps;
     ast_literal_eval := literal_eval_from samples;
     py_int := int_of_str;
     py_str_of_list := str_of_list |}.

End Reference.

(** ** Sample runs *)

Module Scenario.

Definition comment (path body : string) (position : Z) : value :=
  VDict [("path", VStr path); ("body", VStr body); ("position", VInt position)].

Definition comment_a : value := comment "a.py" "nit" 1.
Definition comment_b : value := comment "b.py" "typo" 3.

(** The reply the prompt asks for: [{"comments": [...]}]. *)
Definition review_of (comments : list value) : value :=
  VDict [("comments", VList comments)].

Definition samples : list value :=
  [review_of [comment_a]; review_of [comment_b]; VList [comment_a]; VList [comment_b]].

Definition lib : Library := Reference.library samples.

Definition constants : Constants :=
  {| MAX_TOKENS := 20; PROMPT := "Review the diff and answer in JSON." |}.

Definition a_py : ChangedFile := {| filename := "a.py"; patch := Some "+x = 1" |}.
Definition b_py : ChangedFile := {| filename := "b.py"; patch := Some "+y = 2" |}.
Definition b_py_binary : ChangedFile := {| filename := "b.py"; patch := None |}.
Definition c_py_large : ChangedFile :=
  {| filename := "c.py"; patch := Some "+0123456789012345678901234567890" |}.

Definition reply (v : value) : completion_outcome :=
  Completion [Some (Reference.dumps v)].

Definition not_json : completion_outcome :=
  Completion [Some "I cannot review this diff."].

(** The endpoint answers with one comment on the file it is asked about. *)
Definition answers (tr : list event) (req : ChatRequest) : completion_outcome :=
  if is_substring "filename: a.py" (user_content req)
  then reply (review_of [comment_a])
  else reply (review_of [comment_b]).

Definition never_json (tr : list event) (req : ChatRequest) : completion_outcome :=
  not_json.

(** Every odd call (the first, the third, ...) is answered with prose. *)
Definition json_on_retry (tr : list event) (req : ChatRequest) : completion_outcome :=
  if Nat.even (List.length (List.filter is_chat_call tr)) then not_json
  else answers tr req.

Definition api_down (tr : list event) (req : ChatRequest) : completion_outcome :=
  APIError "The server is overloaded".

Definition env_of (vars : list (string * string)) : gmap string string :=
  list_to_map vars.

Definition full_env : list (string * string) :=
  [("OPENAI_API_KEY", "sk-test"); ("GITHUB_TOKEN", "ghp-test");
   ("GITHUB_REF", "refs/pull/7/merge"); ("GITHUB_REPOSITORY", "octo/demo")].

Definition pull_7 (changed : list ChangedFile) : PullRequest :=
  {| number := 7; files := changed; accepts_review := fun _ _ _ => true |}.

Definition outside (vars : list (string * string)) (changed : list ChangedFile)
    (chat : list event -> ChatRequest -> completion_outcome) : Outside :=
  {| environ := env_of vars;
     github := fun _ full_name =>
       if String.eqb full_name "octo/demo"
       then Some {| name := "demo";
                    pulls := fun n => if n =? 7 then Some (pull_7 changed) else None |}
       else None;
     openai_chat := chat |}.

(** The runs used below: the changed files and the endpoint's behaviour. *)
Definition both_answered : Outside := outside full_env [a_py; b_py] answers.
Definition mixed : Outside := outside full_env [a_py; b_py_binary; c_py_large] answers.
Definition unanswered : Outside := outside full_env [a_py] never_json.
Definition answered_on_retry : Outside := outside full_env [a_py] json_on_retry.
Definition unreachable : Outside := outside full_env [a_py] api_down.

Definition no_repository : Outside :=
  outside [("OPENAI_API_KEY", "sk-test"); ("GITHUB_TOKEN", "ghp-test");
           ("GITHUB_REF", "refs/heads")] [a_py] answers.

Definition empty_ref : Outside :=
  outside [("OPENAI_API_KEY", "sk-test"); ("GITHUB_TOKEN", "ghp-test");
           ("GITHUB_REF", EmptyString); ("GITHUB_REPOSITORY", "octo/demo")]
          [a_py] answers.

Definition branch_ref : Outside :=
  outside [("OPENAI_API_KEY", "sk-test"); ("GITHUB_TOKEN", "ghp-test");
           ("GITHUB_REF", "refs/heads/main"); ("GITHUB_REPOSITORY", "octo/demo")]
          [a_py] answers.

(** The user message for [a_py], and the world after one and two calls
    of the Requester with it. *)
Definition code_a : string := user_message_of a_py "+x = 1".

Definition after_one_call (O : Outside) : world :=
  snd (submit_to_gpt lib constants O code_a initial_world).

Definition after_two_calls (O : Outside) : world :=
  snd (submit_to_gpt lib constants O code_a (after_one_call O)).

(** Further runs: answers that are JSON but no dict, an endpoint that
    fails with an error other than APIError, a pull request without a
    reviewable file, a repository the token cannot see. *)
Definition samples_with_scalars : list value :=
  VInt 5 :: VList [VStr "comments"] :: samples.

Definition lib_with_scalars : Library := Reference.library samples_with_scalars.

Definition answers_number (tr : list event) (req : ChatRequest) : completion_outcome :=
  reply (VInt 5).

Definition answers_list (tr : list event) (req : ChatRequest) : completion_outcome :=
  reply (VList [VStr "comments"]).

Definition rate_limited (tr : list event) (req : ChatRequest) : completion_outcome :=
  OtherOpenAIError.

Definition number_answered : Outside := outside full_env [a_py] answers_number.
Definition list_answered : Outside := outside full_env [a_py] answers_list.
Definition throttled : Outside := outside full_env [a_py] rate_limited.
Definition nothing_reviewable : Outside :=
  outside full_env [b_py_binary; c_py_large] answers.

Definition unknown_repository : Outside :=
  outside [("OPENAI_API_KEY", "sk-test"); ("GITHUB_TOKEN", "ghp-test");
           ("GITHUB_REF", "refs/pull/7/merge"); ("GITHUB_REPOSITORY", "octo/other")]
          [a_py] answers.

(** The endpoint answers with the JSON list [[]]: valid JSON, no dict. *)
Definition lib_with_empty_list : Library := Reference.library (VList [] :: samples).

Definition answers_empty_list (tr : list event) (req : ChatRequest) : completion_outcome :=
  reply (VList []).

Definition empty_list_answered : Outside := outside full_env [a_py] answers_empty_list.

(** The world when the loop starts, in the runs above. *)
Definition at_loop_start : world :=
  extend (started "sk-test") [GetRepo "ghp-test" "octo/demo"; GetPull 7; GetFiles].

End Scenario.

(** * Properties *)

Section Properties.

Context (L : Library) (C : Constants) (O : Outside).

(** ** The Requester *)

Lemma chat_calls_snoc (w : world) (key : option string) (req : ChatRequest) :
  chat_calls {| api_key := api_key w;
                trace := trace w ++ [ChatCompletionCreate key req] |}
  = S (chat_calls w).
Proof.
  unfold chat_calls; simpl.
  rewrite List.filter_app, List.length_app; simpl. lia.
Qed.

(** Every invocation makes one call to the endpoint, whatever comes back. *)
Lemma submit_to_gpt_world (code : string) (w : world) :
  snd (submit_to_gpt L C O code w)
  = {| api_key := api_key w;
       trace := trace w ++ [ChatCompletionCreate (api_key w) (chat_request C code)] |}.
Proof.
  unfold submit_to_gpt, ChatCompletion_create, mbind, M_bind, mret, M_ret, raise.
  destruct (openai_chat O (trace w) (chat_request C code)); reflexivity.
Qed.

Lemma submit_to_gpt_calls (code : string) (w : world) :
  chat_calls (snd (submit_to_gpt L C O code w)) = S (chat_calls w).
Proof. rewrite submit_to_gpt_world. apply chat_calls_snoc. Qed.

(** C9. When the completion call fails with an APIError, or the content
    it returns is not valid JSON, [submit_to_gpt] raises nothing and
    returns the empty dict, which has no ["comments"] key: the caller
    cannot tell the two failures apart and retries on both. *)
Theorem submit_to_gpt_failure_is_empty_dict (code : string) (w : world) :
  (exists msg, openai_chat O (trace w) (chat_request C code) = APIError msg) \/
  (exists content others,
      openai_chat O (trace w) (chat_request C code) = Completion (content :: others) /\
      json_loads L (py_str content) = None) ->
  fst (submit_to_gpt L C O code w) = Ok (VDict []) /\
  no_comments (VDict []).
Proof.
  intros H. split; [| reflexivity].
  unfold submit_to_gpt, ChatCompletion_create, mbind, M_bind, mret, M_ret.
  destruct H as [[msg ->] | (content & others & -> & ->)]; reflexivity.
Qed.

(** ** The filter, inlined in the loop body *)

(** C7. A changed file whose patch is absent is classified SkippedEmpty,
    and the loop body leaves the accumulators and the world as they are:
    no call to the completion endpoint is made for it. *)
Theorem absent_patch_never_requested
    (item : ChangedFile) (acc : list string * list string) (w : world) :
  patch item = None ->
  diff_filter C item = SkippedEmpty /\
  review_item L C O item acc w = (Ok acc, w) /\
  chat_calls (snd (review_item L C O item acc w)) = chat_calls w.
Proof.
  intros Hp. unfold diff_filter, review_item. rewrite Hp.
  destruct acc as [comments skipped]. simpl. auto.
Qed.

(** The first thing the loop body does with a patch within the limit is
    to call the Requester. *)
Lemma review_item_requests
    (item : ChangedFile) (p : string) (acc : list string * list string) (w : world) :
  patch item = Some p ->
  (Z.of_nat (String.length p) <= MAX_TOKENS C) ->
  (chat_calls w < chat_calls (snd (review_item L C O item acc w)))%nat.
Proof.
  intros Hp Hle. unfold review_item. destruct acc as [comments skipped].
  simpl. rewrite Hp.
  destruct (Z.gtb_spec (Z.of_nat (String.length p)) (MAX_TOKENS C)) as [Hgt | _]; [lia |].
  unfold mbind, M_bind at 1.
  pose proof (submit_to_gpt_calls (user_message_of item p) w) as H1.
  destruct (submit_to_gpt L C O (user_message_of item p) w) as [[r1 | e1] w1];
    simpl in H1; [| simpl; lia].
  unfold mbind, M_bind at 1. unfold lift at 1.
  destruct (py_contains "comments" r1) as [[|] | e]; [| | simpl; lia].
  - unfold mbind, M_bind, lift, mret, M_ret.
    destruct (py_getitem "comments" r1); simpl; lia.
  - unfold mbind, M_bind at 1.
    pose proof (submit_to_gpt_calls (user_message_of item p) w1) as H2.
    destruct (submit_to_gpt L C O (user_message_of item p) w1) as [[r2 | e2] w2];
      simpl in H2; [| simpl; lia].
    unfold mbind, M_bind, lift, mret, M_ret.
    destruct (py_contains "comments" r2) as [[|] | e]; [| simpl; lia | simpl; lia].
    destruct (py_getitem "comments" r2); simpl; lia.
Qed.

Lemma review_items_cons
    (item : ChangedFile) (rest : list ChangedFile)
    (acc : list string * list string) (w : world) :
  review_items L C O (item :: rest) acc w
  = match review_item L C O item acc w with
    | (Ok acc', w') => review_items L C O rest acc' w'
    | (Raise e, w') => (Raise e, w')
    end.
Proof. reflexivity. Qed.

Lemma review_items_app
    (before after : list ChangedFile) (acc : list string * list string) (w : world) :
  review_items L C O (before ++ after) acc w
  = match review_items L C O before acc w with
    | (Ok acc', w') => review_items L C O after acc' w'
    | (Raise e, w') => (Raise e, w')
    end.
Proof.
  revert acc w. induction before as [| item before IH]; intros acc w; [reflexivity |].
  rewrite <- List.app_comm_cons, !review_items_cons.
  destruct (review_item L C O item acc w) as [[acc' | e] w']; [apply IH | reflexivity].
Qed.

(** The loop body only appends: what is in the skip list stays there. *)
Lemma review_item_keeps_skipped
    (item : ChangedFile) (acc acc' : list string * list string) (w w' : world) :
  review_item L C O item acc w = (Ok acc', w') ->
  forall f, f ∈ snd acc -> f ∈ snd acc'.
Proof.
  unfold review_item. destruct acc as [comments skipped].
  unfold mbind, M_bind, lift, mret, M_ret. simpl.
  intros Heq f Hf.
  repeat case_match; simplify_eq; simpl; try assumption;
    apply elem_of_app; by left.
Qed.

Lemma review_items_keeps_skipped
    (changed : list ChangedFile) (acc acc' : list string * list string) (w w' : world) :
  review_items L C O changed acc w = (Ok acc', w') ->
  forall f, f ∈ snd acc -> f ∈ snd acc'.
Proof.
  revert acc w. induction changed as [| item rest IH]; intros acc w Heq f Hf.
  - injection Heq as <- _. assumption.
  - rewrite review_items_cons in Heq.
    destruct (review_item L C O item acc w) as [[acc1 | e] w1] eqn:Hitem; [| discriminate].
    eapply IH; [exact Heq |]. eapply review_item_keeps_skipped; eauto.
Qed.

(** The loop body on a patch over the limit. *)
Lemma review_item_too_large
    (item : ChangedFile) (p : string) (acc : list string * list string) (w : world) :
  patch item = Some p ->
  Z.of_nat (String.length p) > MAX_TOKENS C ->
  review_item L C O item acc w = (Ok (fst acc, snd acc ++ [filename item]), w).
Proof.
  intros Hp Hgt. unfold review_item. rewrite Hp.
  destruct acc as [comments skipped]. simpl.
  destruct (Z.gtb_spec (Z.of_nat (String.length p)) (MAX_TOKENS C)); [reflexivity | lia].
Qed.

(** C6. A changed file with a patch is reviewable, and the Requester is
    invoked for it, exactly when the length of the patch is at most
    [MAX_TOKENS]; a longer patch is too large, the Requester is not
    invoked, the file name is appended to the skip list, and it is in the
    skip list at the end of the loop. *)
Theorem patch_reviewable_iff_within_limit
    (item : ChangedFile) (p : string) (acc : list string * list string) (w : world) :
  patch item = Some p ->
  (diff_filter C item = Reviewable <-> Z.of_nat (String.length p) <= MAX_TOKENS C) /\
  ((chat_calls w < chat_calls (snd (review_item L C O item acc w)))%nat
     <-> Z.of_nat (String.length p) <= MAX_TOKENS C) /\
  (Z.of_nat (String.length p) > MAX_TOKENS C ->
     diff_filter C item = SkippedTooLarge /\
     review_item L C O item acc w = (Ok (fst acc, snd acc ++ [filename item]), w) /\
     forall (before after : list ChangedFile) (w0 w' : world)
            (final : list string * list string),
       review_items L C O (before ++ item :: after) ([], []) w0 = (Ok final, w') ->
       filename item ∈ snd final).
Proof.
  intros Hp.
  assert (Hclass : diff_filter C item
                   = if Z.of_nat (String.length p) <=? MAX_TOKENS C
                     then Reviewable else SkippedTooLarge).
  { unfold diff_filter. by rewrite Hp. }
  split; [| split].
  - rewrite Hclass.
    destruct (Z.leb_spec (Z.of_nat (String.length p)) (MAX_TOKENS C));
      [tauto | split; [discriminate | lia]].
  - split.
    + intros Hcalls.
      destruct (Z.le_gt_cases (Z.of_nat (String.length p)) (MAX_TOKENS C)) as [| Hgt];
        [assumption |].
      rewrite (review_item_too_large item p acc w Hp) in Hcalls by lia.
      simpl in Hcalls. lia.
    + intros Hle. eapply review_item_requests; eauto.
  - intros Hgt. split; [| split].
    + rewrite Hclass.
      destruct (Z.leb_spec (Z.of_nat (String.length p)) (MAX_TOKENS C)); [lia | reflexivity].
    + by apply (review_item_too_large item p).
    + intros before after w0 w' final Hrun.
      rewrite review_items_app in Hrun.
      destruct (review_items L C O before ([], []) w0) as [[acc1 | e] w1]; [| discriminate].
      rewrite review_items_cons, (review_item_too_large item p acc1 w1 Hp Hgt) in Hrun.
      eapply review_items_keeps_skipped; [exact Hrun |].
      simpl. apply elem_of_app. right. by apply list_elem_of_singleton.
Qed.

(** ** The retry *)

(** The loop body on a patch within the limit: the size test falls
    through to the first call of the Requester. *)
Lemma review_item_within_limit
    (item : ChangedFile) (p : string) (comments skipped : list string) :
  patch item = Some p ->
  Z.of_nat (String.length p) <= MAX_TOKENS C ->
  review_item L C O item (comments, skipped)
  = (diff_comment ← submit_to_gpt L C O (user_message_of item p);
     has ← lift (py_contains "comments" diff_comment);
     if (has : bool) then
       c ← lift (py_getitem "comments" diff_comment);
       mret (comments ++ [json_dumps L c], skipped)
     else
       diff_comment ← submit_to_gpt L C O (user_message_of item p);
       has ← lift (py_contains "comments" diff_comment);
       if (has : bool) then
         c ← lift (py_getitem "comments" diff_comment);
         mret (comments ++ [json_dumps L c], skipped)
       else
         mret (comments, skipped ++ [filename item])).
Proof.
  intros Hp Hle. unfold review_item. simpl. rewrite Hp.
  destruct (Z.gtb_spec (Z.of_nat (String.length p)) (MAX_TOKENS C)); [lia | reflexivity].
Qed.

Lemma two_calls_trace (code : string) (w w1 w2 : world) (r1 r2 : result value) :
  submit_to_gpt L C O code w = (r1, w1) ->
  submit_to_gpt L C O code w1 = (r2, w2) ->
  api_key w2 = api_key w /\
  trace w2 = trace w ++ [ChatCompletionCreate (api_key w) (chat_request C code);
                         ChatCompletionCreate (api_key w) (chat_request C code)].
Proof.
  intros H1 H2.
  pose proof (submit_to_gpt_world code w) as E1. rewrite H1 in E1. simpl in E1.
  pose proof (submit_to_gpt_world code w1) as E2. rewrite H2 in E2. simpl in E2.
  subst w1 w2. simpl. split; [reflexivity |].
  rewrite <- List.app_assoc. reflexivity.
Qed.

Lemma has_comments_contains (v c : value) :
  has_comments v c ->
  py_contains "comments" v = Ok true /\ py_getitem "comments" v = Ok c.
Proof.
  intros (items & -> & Hget). simpl. rewrite Hget. auto.
Qed.

(** C4. When the Requester fails on both attempts for a reviewable file
    (neither result has comments), the loop body has called it exactly
    twice, the file name is appended to the skip list, the comments are
    untouched, and the loop goes on with the next file. *)
Theorem two_failures_two_calls_then_skip
    (item : ChangedFile) (p : string) (acc : list string * list string)
    (w w1 w2 : world) (r1 r2 : value) (rest : list ChangedFile) :
  patch item = Some p ->
  Z.of_nat (String.length p) <= MAX_TOKENS C ->
  submit_to_gpt L C O (user_message_of item p) w = (Ok r1, w1) ->
  no_comments r1 ->
  submit_to_gpt L C O (user_message_of item p) w1 = (Ok r2, w2) ->
  no_comments r2 ->
  review_item L C O item acc w = (Ok (fst acc, snd acc ++ [filename item]), w2) /\
  trace w2 = trace w ++
    [ChatCompletionCreate (api_key w) (chat_request C (user_message_of item p));
     ChatCompletionCreate (api_key w) (chat_request C (user_message_of item p))] /\
  chat_calls w2 = (chat_calls w + 2)%nat /\
  review_items L C O (item :: rest) acc w
  = review_items L C O rest (fst acc, snd acc ++ [filename item]) w2.
Proof.
  intros Hp Hle H1 Hno1 H2 Hno2.
  destruct acc as [comments skipped]. simpl fst. simpl snd.
  assert (Hitem : review_item L C O item (comments, skipped) w
                  = (Ok (comments, skipped ++ [filename item]), w2)).
  { rewrite (review_item_within_limit item p comments skipped Hp Hle).
    unfold mbind, M_bind at 1. rewrite H1.
    unfold mbind, M_bind at 1. unfold lift at 1. rewrite Hno1.
    unfold mbind, M_bind at 1. rewrite H2.
    unfold mbind, M_bind at 1. unfold lift at 1. rewrite Hno2.
    reflexivity. }
  destruct (two_calls_trace _ _ _ _ _ _ H1 H2) as [_ Htr].
  repeat split.
  - exact Hitem.
  - exact Htr.
  - pose proof (submit_to_gpt_calls (user_message_of item p) w) as E1.
    pose proof (submit_to_gpt_calls (user_message_of item p) w1) as E2.
    rewrite H1 in E1. rewrite H2 in E2. simpl in E1, E2. lia.
  - rewrite review_items_cons, Hitem. reflexivity.
Qed.

(** C5. When the Requester fails on the first attempt and succeeds on the
    second, the loop body has called it exactly twice, the comments of
    the second attempt are appended (serialised) to the accumulated
    comments, the skip list is left as it was, and the loop goes on with
    the next file. *)
Theorem failure_then_success_appends_comments
    (item : ChangedFile) (p : string) (acc : list string * list string)
    (w w1 w2 : world) (r1 r2 c : value) (rest : list ChangedFile) :
  patch item = Some p ->
  Z.of_nat (String.length p) <= MAX_TOKENS C ->
  submit_to_gpt L C O (user_message_of item p) w = (Ok r1, w1) ->
  no_comments r1 ->
  submit_to_gpt L C O (user_message_of item p) w1 = (Ok r2, w2) ->
  has_comments r2 c ->
  review_item L C O item acc w = (Ok (fst acc ++ [json_dumps L c], snd acc), w2) /\
  trace w2 = trace w ++
    [ChatCompletionCreate (api_key w) (chat_request C (user_message_of item p));
     ChatCompletionCreate (api_key w) (chat_request C (user_message_of item p))] /\
  chat_calls w2 = (chat_calls w + 2)%nat /\
  review_items L C O (item :: rest) acc w
  = review_items L C O rest (fst acc ++ [json_dumps L c], snd acc) w2.
Proof.
  intros Hp Hle H1 Hno1 H2 Hyes2.
  destruct acc as [comments skipped]. simpl fst. simpl snd.
  destruct (has_comments_contains _ _ Hyes2) as [Hin Hget].
  assert (Hitem : review_item L C O item (comments, skipped) w
                  = (Ok (comments ++ [json_dumps L c], skipped), w2)).
  { rewrite (review_item_within_limit item p comments skipped Hp Hle).
    unfold mbind, M_bind at 1. rewrite H1.
    unfold mbind, M_bind at 1. unfold lift at 1. rewrite Hno1.
    unfold mbind, M_bind at 1. rewrite H2.
    unfold mbind, M_bind at 1. unfold lift at 1. rewrite Hin.
    unfold mbind, M_bind at 1. unfold lift at 1. rewrite Hget.
    reflexivity. }
  destruct (two_calls_trace _ _ _ _ _ _ H1 H2) as [_ Htr].
  repeat split.
  - exact Hitem.
  - exact Htr.
  - pose proof (submit_to_gpt_calls (user_message_of item p) w) as E1.
    pose proof (submit_to_gpt_calls (user_message_of item p) w1) as E2.
    rewrite H1 in E1. rewrite H2 in E2. simpl in E1, E2. lia.
  - rewrite review_items_cons, Hitem. reflexivity.
Qed.

(** ** Start-up *)

Lemma getenv_truthy_unset (k : string) :
  environ O !! k = None -> getenv_truthy O k = None.
Proof. intros H. unfold getenv_truthy. rewrite H. reflexivity. Qed.

(** [main] reads the four variables in turn and stops at the first one
    that is unset or empty; nothing has been sent by then. *)
Lemma main_stops_at_first_missing (k : string) :
  k ∈ required_variables ->
  getenv_truthy O k = None ->
  fst (run L C O) = Raise (SystemExit 1) /\ trace (snd (run L C O)) = [].
Proof.
  intros Hk Hnone.
  unfold run, main, set_openai_key, get_github_session, get_repo_and_pr.
  unfold mbind, M_bind, mret, M_ret, raise.
  destruct (getenv_truthy O "OPENAI_API_KEY") as [key |] eqn:Ekey; [| auto].
  destruct (getenv_truthy O "GITHUB_TOKEN") as [tok |] eqn:Etok; [| auto].
  destruct (getenv_truthy O "GITHUB_REF") as [ref |] eqn:Eref; [| auto].
  destruct (getenv_truthy O "GITHUB_REPOSITORY") as [repository |] eqn:Erepo; [| auto].
  exfalso. unfold required_variables in Hk.
  repeat (apply elem_of_cons in Hk as [-> | Hk]; [congruence |]).
  by apply elem_of_nil in Hk.
Qed.

(** C8. When one of the four required environment variables is unset,
    the process exits with status 1, and no call to the hosting platform
    or to the completion endpoint has been made. *)
Theorem missing_variable_exits_1_before_any_call (k : string) :
  k ∈ required_variables ->
  environ O !! k = None ->
  fst (run L C O) = Raise (SystemExit 1) /\
  exit_status (fst (run L C O)) = 1 /\
  trace (snd (run L C O)) = [].
Proof.
  intros Hk Hunset.
  destruct (main_stops_at_first_missing k Hk (getenv_truthy_unset k Hunset)) as [Hr Ht].
  rewrite Hr. auto.
Qed.

(** C10, as the code has it.  [get_repo_and_pr] raises [SystemExit(1)]
    exactly when GITHUB_REF or GITHUB_REPOSITORY is unset or empty.  When
    both are set, a GITHUB_REF without a third segment raises IndexError,
    and one whose third segment [int] rejects raises ValueError. *)
Theorem get_repo_and_pr_failures (w : world) :
  (fst (get_repo_and_pr L O w) = Raise (SystemExit 1) <->
     getenv_truthy O "GITHUB_REF" = None \/
     getenv_truthy O "GITHUB_REPOSITORY" = None) /\
  (forall ref repository : string,
      getenv_truthy O "GITHUB_REF" = Some ref ->
      getenv_truthy O "GITHUB_REPOSITORY" = Some repository ->
      match str_split "/" ref !! 2%nat with
      | None => get_repo_and_pr L O w = (Raise IndexError, w)
      | Some segment =>
          py_int L segment = None ->
          get_repo_and_pr L O w = (Raise ValueError, w)
      end).
Proof.
  unfold get_repo_and_pr, mbind, M_bind, mret, M_ret, raise, lift, list_getitem.
  destruct (getenv_truthy O "GITHUB_REF") as [ref |] eqn:Eref.
  2:{ split; [simpl; tauto | discriminate]. }
  destruct (getenv_truthy O "GITHUB_REPOSITORY") as [repository |] eqn:Erepo.
  2:{ split; [simpl; tauto | discriminate]. }
  split.
  - split.
    + destruct (str_split "/" ref !! 2%nat) as [segment |]; simpl; [| discriminate].
      destruct (py_int L segment); simpl; discriminate.
    + intros [H | H]; discriminate.
  - intros ref' repository' [= <-] [= <-].
    destruct (str_split "/" ref !! 2%nat) as [segment |]; [| reflexivity].
    intros ->. reflexivity.
Qed.

(** ** One outcome per changed file *)

Lemma tagged_partition (changed : list ChangedFile) (tags : list Outcome) :
  List.length tags = List.length changed ->
  changed ≡ₚ tagged Accepted changed tags ++ tagged Skipped changed tags
             ++ tagged Ignored changed tags.
Proof.
  revert tags. induction changed as [| f changed IH]; intros [| t tags] Hlen;
    simpl in Hlen; try discriminate; [reflexivity |].
  injection Hlen as Hlen. specialize (IH tags Hlen).
  destruct t; simpl.
  - by rewrite <- IH.
  - rewrite <- Permutation_middle. by rewrite <- IH.
  - rewrite List.app_assoc, <- Permutation_middle, <- List.app_assoc.
    by rewrite <- IH.
Qed.

(** What the loop body has done to a file when it returns. *)
Lemma review_item_outcome
    (item : ChangedFile) (acc acc' : list string * list string) (w w' : world) :
  review_item L C O item acc w = (Ok acc', w') ->
  exists (t : Outcome) (batch : list string),
    tag_fits C item t /\
    acc' = (fst acc ++ batch, snd acc ++ (filename <$> tagged Skipped [item] [t])) /\
    List.length batch = List.length (tagged Accepted [item] [t]).
Proof.
  destruct acc as [comments skipped]. simpl fst. simpl snd.
  destruct (patch item) as [p |] eqn:Hp.
  - destruct (Z.le_gt_cases (Z.of_nat (String.length p)) (MAX_TOKENS C)) as [Hle | Hgt].
    + assert (Hrev : diff_filter C item = Reviewable).
      { unfold diff_filter. rewrite Hp.
        destruct (Z.leb_spec (Z.of_nat (String.length p)) (MAX_TOKENS C)); [done | lia]. }
      assert (Haccepted : tag_fits C item Accepted).
      { unfold tag_fits. rewrite Hp, Hrev. done. }
      assert (Hskipped : tag_fits C item Skipped).
      { unfold tag_fits. rewrite Hp, Hrev. done. }
      rewrite (review_item_within_limit item p comments skipped Hp Hle).
      unfold mbind, M_bind at 1.
      destruct (submit_to_gpt L C O (user_message_of item p) w) as [[r1 | e1] w1];
        [| discriminate].
      unfold mbind, M_bind at 1. unfold lift at 1.
      destruct (py_contains "comments" r1) as [[|] | e1]; [| | discriminate].
      * (* accepted on the first attempt *)
        unfold mbind, M_bind, lift, mret, M_ret.
        destruct (py_getitem "comments" r1) as [c1 | e1]; [| discriminate].
        intros [= <- _]. exists Accepted, [json_dumps L c1].
        split; [exact Haccepted |]. split; [| done]. simpl. by rewrite List.app_nil_r.
      * unfold mbind, M_bind at 1.
        destruct (submit_to_gpt L C O (user_message_of item p) w1) as [[r2 | e2] w2];
          [| discriminate].
        unfold mbind, M_bind at 1. unfold lift at 1.
        destruct (py_contains "comments" r2) as [[|] | e2]; [| | discriminate].
        -- (* accepted on the second attempt *)
           unfold mbind, M_bind, lift, mret, M_ret.
           destruct (py_getitem "comments" r2) as [c2 | e2]; [| discriminate].
           intros [= <- _]. exists Accepted, [json_dumps L c2].
           split; [exact Haccepted |]. split; [| done]. simpl. by rewrite List.app_nil_r.
        -- (* both attempts failed *)
           intros [= <- _]. exists Skipped, [].
           split; [exact Hskipped |]. split; [| done]. simpl. by rewrite List.app_nil_r.
    + rewrite (review_item_too_large item p (comments, skipped) w Hp) by lia.
      intros [= <- _]. exists Skipped, [].
      split; [| split]; [| | done].
      { unfold tag_fits, diff_filter. rewrite Hp.
        destruct (Z.leb_spec (Z.of_nat (String.length p)) (MAX_TOKENS C)); [lia | done]. }
      simpl. by rewrite List.app_nil_r.
  - unfold review_item. simpl. rewrite Hp. intros [= <- _]. exists Ignored, [].
    split; [| split]; [| | done].
    { unfold tag_fits, diff_filter. rewrite Hp. done. }
    simpl. by rewrite !List.app_nil_r.
Qed.

Lemma tagged_cons (o t : Outcome) (f : ChangedFile)
    (changed : list ChangedFile) (tags : list Outcome) :
  tagged o (f :: changed) (t :: tags) = tagged o [f] [t] ++ tagged o changed tags.
Proof. simpl. destruct (Outcome_eqb t o); reflexivity. Qed.

Lemma review_items_outcomes
    (changed : list ChangedFile) (acc final : list string * list string) (w w' : world) :
  review_items L C O changed acc w = (Ok final, w') ->
  exists (tags : list Outcome) (batches : list string),
    Forall2 (tag_fits C) changed tags /\
    final = (fst acc ++ batches, snd acc ++ (filename <$> tagged Skipped changed tags)) /\
    List.length batches = List.length (tagged Accepted changed tags).
Proof.
  revert acc w. induction changed as [| item rest IH]; intros acc w Hrun.
  - injection Hrun as <- _. exists [], []. split; [constructor |]. split; [| done].
    destruct acc. simpl. by rewrite !List.app_nil_r.
  - rewrite review_items_cons in Hrun.
    destruct (review_item L C O item acc w) as [[acc1 | e] w1] eqn:Hitem; [| discriminate].
    destruct (review_item_outcome item acc acc1 w w1 Hitem) as (t & b & Hfit & -> & Hlen).
    destruct (IH _ _ Hrun) as (tags & bs & Hfits & -> & Hlens).
    exists (t :: tags), (b ++ bs). split; [by constructor |]. split.
    + simpl fst. simpl snd.
      rewrite (tagged_cons Skipped), fmap_app, !List.app_assoc. reflexivity.
    + rewrite (tagged_cons Accepted), !List.length_app. lia.
Qed.

Lemma absent_patch_is_ignored
    (changed : list ChangedFile) (tags : list Outcome) (f : ChangedFile) :
  Forall2 (tag_fits C) changed tags ->
  f ∈ changed -> patch f = None -> f ∈ tagged Ignored changed tags.
Proof.
  induction 1 as [| g t changed tags Hfit _ IH]; intros Hin Hp.
  - by apply elem_of_nil in Hin.
  - apply elem_of_cons in Hin as [-> | Hin].
    + destruct Hfit as [[_ Hign] _]. rewrite (Hign Hp). simpl. apply elem_of_cons. by left.
    + simpl. destruct (Outcome_eqb t Ignored); [apply elem_of_cons; right |]; by apply IH.
Qed.

Lemma classes_disjoint (A S I : list ChangedFile) (changed : list ChangedFile) :
  changed ≡ₚ A ++ S ++ I ->
  NoDup (filename <$> changed) ->
  (forall f, f ∈ A -> filename f ∉ (filename <$> S)) /\
  (forall f, f ∈ I -> filename f ∉ (filename <$> S)).
Proof.
  intros Hperm Hnodup.
  rewrite Hperm, !fmap_app in Hnodup.
  apply NoDup_app in Hnodup as (_ & HA & HSI).
  apply NoDup_app in HSI as (_ & HS & _).
  split; intros f Hf Hin.
  - apply (HA (filename f)); [by apply list_elem_of_fmap_2 |].
    apply elem_of_app. by left.
  - apply (HS (filename f) Hin). by apply list_elem_of_fmap_2.
Qed.

(** C2, as the code has it.  In a run whose per-file loop runs to its
    end, each changed file has exactly one outcome: accepted (one batch
    of comments appended), skipped (its name appended to the skip list)
    or ignored.  A file is ignored exactly when its patch is absent, only
    a file within the limit is accepted, and a patch over the limit is
    skipped.  The skip list is the names of the skipped files, in order,
    and there is one batch per accepted file.  The three classes
    partition the changed files; when the file names are pairwise
    distinct, no accepted file and no file without a patch has its name
    in the skip list. *)
Theorem every_changed_file_has_one_outcome
    (changed : list ChangedFile) (w w' : world) (comments skipped : list string) :
  review_items L C O changed ([], []) w = (Ok (comments, skipped), w') ->
  exists tags : list Outcome,
    Forall2 (tag_fits C) changed tags /\
    skipped = filename <$> tagged Skipped changed tags /\
    List.length comments = List.length (tagged Accepted changed tags) /\
    changed ≡ₚ tagged Accepted changed tags ++ tagged Skipped changed tags
               ++ tagged Ignored changed tags /\
    (NoDup (filename <$> changed) ->
     (forall f, f ∈ tagged Accepted changed tags ->
                filename f ∉ (filename <$> tagged Skipped changed tags)) /\
     (forall f, f ∈ changed -> patch f = None ->
                filename f ∉ (filename <$> tagged Skipped changed tags))).
Proof.
  intros Hrun.
  destruct (review_items_outcomes changed ([], []) _ w w' Hrun)
    as (tags & batches & Hfits & Hfinal & Hlen).
  simpl in Hfinal. injection Hfinal as -> ->.
  exists tags.
  pose proof (tagged_partition changed tags (eq_sym (Forall2_length _ _ _ Hfits))) as Hperm.
  do 4 (split; [done |]).
  intros Hnodup.
  destruct (classes_disjoint _ _ _ _ Hperm Hnodup) as [Haccepted Hignored].
  split; [exact Haccepted |].
  intros f Hf Hp. apply Hignored. by eapply absent_patch_is_ignored.
Qed.

(** ** The submission *)

(** Only the first batch is read: what follows it does not matter. *)
Lemma submit_review_reads_first_batch_only
    (first : string) (others others' : list string)
    (p : PullRequest) (skipped : list string) (w : world) :
  submit_review L O (first :: others) p skipped w
  = submit_review L O (first :: others') p skipped w.
Proof. reflexivity. Qed.

(** With a single batch the review carries the flattened list. *)
Lemma submit_review_single_batch
    (batch : string) (p : PullRequest) (skipped : list string) (w : world)
    (items : list value) :
  is_Some (getenv_truthy O "GITHUB_TOKEN") ->
  flatten_batches L [batch] = Ok items ->
  fst (submit_review L O [batch] p skipped w) = Ok tt /\
  submitted_comments (snd (submit_review L O [batch] p skipped w))
  = submitted_comments w ++ [items].
Proof.
  intros [tok Htok] Hflat. unfold submit_review. rewrite Htok.
  simpl in Hflat.
  unfold mbind, M_bind, lift, list_getitem, try_except, PullRequest_create_review, emit.
  simpl.
  destruct (ast_literal_eval L batch) as [evaluated | e]; [| discriminate].
  destruct (py_iter evaluated) as [items' | e]; [| discriminate].
  injection Hflat as <-. rewrite List.app_nil_r.
  destruct (accepts_review p _ _ items'); simpl; split; try reflexivity;
    unfold submitted_comments; simpl; by rewrite omap_app.
Qed.

(** Without any batch, indexing [comments[0]] raises. *)
Lemma submit_review_no_batch
    (p : PullRequest) (skipped : list string) (w : world) :
  is_Some (getenv_truthy O "GITHUB_TOKEN") ->
  submit_review L O [] p skipped w = (Raise IndexError, w).
Proof.
  intros [tok Htok]. unfold submit_review. rewrite Htok. reflexivity.
Qed.

(** * Further properties of the script *)

(** ** The Requester, whatever the endpoint does *)

Lemma extend_nil (w : world) : extend w [] = w.
Proof. destruct w. unfold extend. simpl. by rewrite List.app_nil_r. Qed.

Lemma extend_extend (w : world) (a b : list event) :
  extend (extend w a) b = extend w (a ++ b).
Proof. unfold extend. simpl. by rewrite List.app_assoc. Qed.

Lemma submit_to_gpt_extends (code : string) (w : world) :
  snd (submit_to_gpt L C O code w)
  = extend w [ChatCompletionCreate (api_key w) (chat_request C code)].
Proof. apply submit_to_gpt_world. Qed.

Lemma submit_to_gpt_raises (code : string) (w : world) (e : exn) :
  fst (submit_to_gpt L C O code w) = Raise e ->
  e = OpenAIError /\
  openai_chat O (trace w) (chat_request C code) = OtherOpenAIError.
Proof.
  unfold submit_to_gpt, ChatCompletion_create, mbind, M_bind, mret, M_ret, raise.
  destruct (openai_chat O (trace w) (chat_request C code)); simpl; intros He;
    try discriminate.
  by injection He as <-.
Qed.

(** Every invocation of [submit_to_gpt] makes exactly one completion call,
    with the model ["gpt-3.5-turbo"], the prompt of the constants module as
    system message and its argument as user message, under the key that is
    set at that time.  The only exception it lets through is an openai
    error that is not an APIError. *)
Theorem submit_to_gpt_one_call_one_exception (code : string) (w : world) :
  snd (submit_to_gpt L C O code w)
  = extend w [ChatCompletionCreate (api_key w)
                {| model := "gpt-3.5-turbo"; system_content := PROMPT C;
                   user_content := code |}] /\
  (forall e, fst (submit_to_gpt L C O code w) = Raise e ->
             e = OpenAIError /\
             openai_chat O (trace w) (chat_request C code) = OtherOpenAIError).
Proof.
  split; [apply submit_to_gpt_extends |].
  intros e. apply submit_to_gpt_raises.
Qed.

(** ** The loop body, case by case *)

(** When the first attempt succeeds there is no second one: one call, the
    comments appended, the skip list untouched. *)
Theorem first_success_single_call
    (item : ChangedFile) (p : string) (acc : list string * list string)
    (w w1 : world) (r1 c : value) :
  patch item = Some p ->
  Z.of_nat (String.length p) <= MAX_TOKENS C ->
  submit_to_gpt L C O (user_message_of item p) w = (Ok r1, w1) ->
  has_comments r1 c ->
  review_item L C O item acc w = (Ok (fst acc ++ [json_dumps L c], snd acc), w1) /\
  trace w1 = trace w ++
    [ChatCompletionCreate (api_key w) (chat_request C (user_message_of item p))] /\
  chat_calls w1 = S (chat_calls w).
Proof.
  intros Hp Hle H1 Hyes. destruct acc as [comments skipped]. simpl fst. simpl snd.
  destruct (has_comments_contains _ _ Hyes) as [Hin Hget].
  pose proof (submit_to_gpt_extends (user_message_of item p) w) as Hw.
  pose proof (submit_to_gpt_calls (user_message_of item p) w) as Hc.
  rewrite H1 in Hw, Hc. simpl in Hw, Hc.
  split; [| split; [by rewrite Hw | exact Hc]].
  rewrite (review_item_within_limit item p comments skipped Hp Hle).
  unfold mbind, M_bind at 1. rewrite H1.
  unfold mbind, M_bind at 1. unfold lift at 1. rewrite Hin.
  unfold mbind, M_bind at 1. unfold lift at 1. rewrite Hget.
  reflexivity.
Qed.

(** An answer that is JSON but no container ([null], a boolean or a
    number) is not treated as a failure: the membership test raises
    TypeError, the file is not retried, and the accumulators are lost with
    the loop. *)
Theorem scalar_answer_raises_type_error
    (item : ChangedFile) (p : string) (acc : list string * list string)
    (w w1 : world) (r1 : value) :
  patch item = Some p ->
  Z.of_nat (String.length p) <= MAX_TOKENS C ->
  submit_to_gpt L C O (user_message_of item p) w = (Ok r1, w1) ->
  match r1 with VNone | VBool _ | VInt _ | VFloat _ => True | _ => False end ->
  review_item L C O item acc w = (Raise TypeError, w1) /\
  chat_calls w1 = S (chat_calls w) /\
  forall rest, fst (review_items L C O (item :: rest) acc w) = Raise TypeError.
Proof.
  intros Hp Hle H1 Hscalar. destruct acc as [comments skipped].
  pose proof (submit_to_gpt_calls (user_message_of item p) w) as Hc.
  rewrite H1 in Hc. simpl in Hc.
  assert (Hitem : review_item L C O item (comments, skipped) w = (Raise TypeError, w1)).
  { rewrite (review_item_within_limit item p comments skipped Hp Hle).
    unfold mbind, M_bind at 1. rewrite H1.
    unfold mbind, M_bind at 1. unfold lift at 1.
    destruct r1; try contradiction; reflexivity. }
  split; [exact Hitem |]. split; [exact Hc |].
  intros rest. by rewrite review_items_cons, Hitem.
Qed.

(** An answer that is a list or a str mentioning ["comments"] passes the
    membership test, and indexing it with the key raises TypeError. *)
Theorem non_dict_answer_with_comments_raises
    (item : ChangedFile) (p : string) (acc : list string * list string)
    (w w1 : world) (r1 : value) :
  patch item = Some p ->
  Z.of_nat (String.length p) <= MAX_TOKENS C ->
  submit_to_gpt L C O (user_message_of item p) w = (Ok r1, w1) ->
  (exists items, r1 = VList items /\ VStr "comments" ∈ items) \/
  (exists s, r1 = VStr s /\ is_substring "comments" s = true) ->
  review_item L C O item acc w = (Raise TypeError, w1).
Proof.
  intros Hp Hle H1 Hshape. destruct acc as [comments skipped].
  rewrite (review_item_within_limit item p comments skipped Hp Hle).
  unfold mbind, M_bind at 1. rewrite H1.
  unfold mbind, M_bind at 1. unfold lift at 1.
  destruct Hshape as [(items & -> & Hin) | (s & -> & Hsub)]; simpl.
  - assert (Hex : existsb (is_str "comments") items = true).
    { apply existsb_exists. exists (VStr "comments").
      split; [by apply list_elem_of_In | reflexivity]. }
    rewrite Hex. reflexivity.
  - rewrite Hsub. reflexivity.
Qed.


(** ** What the loop does to the world and to the accumulators *)

Lemma is_reviewable_within (item : ChangedFile) (p : string) :
  patch item = Some p ->
  Z.of_nat (String.length p) <= MAX_TOKENS C ->
  is_reviewable C item = true /\ has_patch item = true.
Proof.
  intros Hp Hle. unfold is_reviewable, has_patch. rewrite Hp.
  destruct (Z.gtb_spec (Z.of_nat (String.length p)) (MAX_TOKENS C)); [lia | done].
Qed.

Lemma request_for_here (item : ChangedFile) (p : string) (key : option string) :
  patch item = Some p ->
  Z.of_nat (String.length p) <= MAX_TOKENS C ->
  request_for C key [item]
    (ChatCompletionCreate key (chat_request C (user_message_of item p))).
Proof.
  intros Hp Hle. exists item, p. repeat split; try assumption.
  by apply list_elem_of_singleton.
Qed.

Lemma request_for_weaken
    (key : option string) (changed changed' : list ChangedFile) (ev : event) :
  (forall item, item ∈ changed -> item ∈ changed') ->
  request_for C key changed ev -> request_for C key changed' ev.
Proof.
  intros Hsub (item & p & Hin & Hrest). exists item, p. split; [by apply Hsub | exact Hrest].
Qed.

(** After a successful membership test, indexing finds the comments or
    raises TypeError; it never raises KeyError. *)
Lemma getitem_after_contains (k : string) (v : value) :
  py_contains k v = Ok true ->
  (exists c, py_getitem k v = Ok c) \/ py_getitem k v = Raise TypeError.
Proof.
  destruct v; simpl; intros H; try discriminate; try (by right).
  destruct (dict_get k items); [left; eauto | discriminate].
Qed.

Lemma submit_to_gpt_step (code : string) (w : world) :
  exists r, submit_to_gpt L C O code w
            = (r, extend w [ChatCompletionCreate (api_key w) (chat_request C code)]).
Proof.
  exists (fst (submit_to_gpt L C O code w)).
  rewrite <- submit_to_gpt_extends. by destruct (submit_to_gpt L C O code w).
Qed.

Lemma review_item_effect
    (item : ChangedFile) (acc : list string * list string) (w : world) :
  exists calls, item_effect L C O item acc w calls.
Proof.
  destruct acc as [comments skipped].
  destruct (patch item) as [p |] eqn:Hp.
  2:{ exists []. 
      assert (Hitem : review_item L C O item (comments, skipped) w
                      = (Ok (comments, skipped), w)).
      { unfold review_item. simpl. by rewrite Hp. }
      split; rewrite ?Hitem; simpl.
      - symmetry. apply extend_nil.
      - constructor.
      - unfold is_reviewable. rewrite Hp. lia.
      - unfold is_reviewable. rewrite Hp. intros; lia.
      - discriminate.
      - intros acc' [= <-]. exists [], []. unfold has_patch. rewrite Hp.
        rewrite !List.app_nil_r. auto. }
  destruct (Z.le_gt_cases (Z.of_nat (String.length p)) (MAX_TOKENS C)) as [Hle | Hgt].
  2:{ exists [].
      pose proof (review_item_too_large item p (comments, skipped) w Hp ltac:(lia)) as Hitem.
      cbn [fst snd] in Hitem.
      assert (Hrev : is_reviewable C item = false).
      { unfold is_reviewable. rewrite Hp.
        destruct (Z.gtb_spec (Z.of_nat (String.length p)) (MAX_TOKENS C)); [done | lia]. }
      split; rewrite ?Hitem, ?Hrev; simpl.
      - symmetry. apply extend_nil.
      - constructor.
      - lia.
      - intros; lia.
      - discriminate.
      - intros acc' [= <-]. exists [], [filename item]. unfold has_patch. rewrite Hp.
        rewrite !List.app_nil_r. auto. }
  destruct (is_reviewable_within item p Hp Hle) as [Hrev Hhas].
  pose proof (request_for_here item p (api_key w) Hp Hle) as Hreq.
  set (code := user_message_of item p) in *.
  set (call := ChatCompletionCreate (api_key w) (chat_request C code)) in *.
  pose proof (review_item_within_limit item p comments skipped Hp Hle) as Hbody.
  fold code in Hbody.
  pose proof (submit_to_gpt_raises code w) as Hex1.
  destruct (submit_to_gpt_step code w) as [[r1 | e1] H1]; fold call in H1;
    rewrite H1 in Hex1; cbn [fst] in Hex1.
  2:{ exists [call].
      assert (Hitem : review_item L C O item (comments, skipped) w
                      = (Raise e1, extend w [call])).
      { rewrite Hbody. unfold mbind, M_bind at 1. by rewrite H1. }
      split; rewrite ?Hitem, ?Hrev; simpl; try discriminate; try lia.
      - reflexivity.
      - by constructor.
      - intros e [= <-]. right. by apply Hex1. }
  destruct (py_contains "comments" r1) as [[|] | e] eqn:Hin1.
  - (* the first answer passes the membership test *)
    exists [call].
    destruct (getitem_after_contains _ _ Hin1) as [[c Hget] | Hget].
    + assert (Hitem : review_item L C O item (comments, skipped) w
                      = (Ok (comments ++ [json_dumps L c], skipped), extend w [call])).
      { rewrite Hbody. unfold mbind, M_bind at 1. rewrite H1.
        unfold mbind, M_bind at 1. unfold lift at 1. rewrite Hin1.
        unfold mbind, M_bind at 1. unfold lift at 1. by rewrite Hget. }
      split; rewrite ?Hitem, ?Hrev, ?Hhas; simpl; try discriminate; try lia.
      * reflexivity.
      * by constructor.
      * intros acc' [= <-]. exists [json_dumps L c], [].
        rewrite List.app_nil_r. auto.
    + assert (Hitem : review_item L C O item (comments, skipped) w
                      = (Raise TypeError, extend w [call])).
      { rewrite Hbody. unfold mbind, M_bind at 1. rewrite H1.
        unfold mbind, M_bind at 1. unfold lift at 1. rewrite Hin1.
        unfold mbind, M_bind at 1. unfold lift at 1. by rewrite Hget. }
      split; rewrite ?Hitem, ?Hrev; simpl; try discriminate; try lia.
      * reflexivity.
      * by constructor.
      * intros e [= <-]. by left.
  - (* the first answer has no comments: one retry *)
    pose proof (submit_to_gpt_raises code (extend w [call])) as Hex2.
    destruct (submit_to_gpt_step code (extend w [call])) as [[r2 | e2] H2];
      change (api_key (extend w [call])) with (api_key w) in H2; fold call in H2;
      rewrite extend_extend in H2; change ([call] ++ [call]) with [call; call] in H2;
      rewrite H2 in Hex2; cbn [fst] in Hex2.
    2:{ exists [call; call].
        assert (Hitem : review_item L C O item (comments, skipped) w
                        = (Raise e2, extend w [call; call])).
        { rewrite Hbody. unfold mbind, M_bind at 1. rewrite H1.
          unfold mbind, M_bind at 1. unfold lift at 1. rewrite Hin1.
          unfold mbind, M_bind at 1. by rewrite H2. }
        split; rewrite ?Hitem, ?Hrev; simpl; try discriminate; try lia.
        - reflexivity.
        - by repeat constructor.
        - intros e [= <-]. right. by apply Hex2. }
    exists [call; call].
    destruct (py_contains "comments" r2) as [[|] | e] eqn:Hin2.
    + destruct (getitem_after_contains _ _ Hin2) as [[c Hget] | Hget].
      * assert (Hitem : review_item L C O item (comments, skipped) w
                        = (Ok (comments ++ [json_dumps L c], skipped),
                           extend w [call; call])).
        { rewrite Hbody. unfold mbind, M_bind at 1. rewrite H1.
          unfold mbind, M_bind at 1. unfold lift at 1. rewrite Hin1.
          unfold mbind, M_bind at 1. rewrite H2.
          unfold mbind, M_bind at 1. unfold lift at 1. rewrite Hin2.
          unfold mbind, M_bind at 1. unfold lift at 1. by rewrite Hget. }
        split; rewrite ?Hitem, ?Hrev, ?Hhas; simpl; try discriminate; try lia.
        -- reflexivity.
        -- by repeat constructor.
        -- intros acc' [= <-]. exists [json_dumps L c], [].
           rewrite List.app_nil_r. auto.
      * assert (Hitem : review_item L C O item (comments, skipped) w
                        = (Raise TypeError, extend w [call; call])).
        { rewrite Hbody. unfold mbind, M_bind at 1. rewrite H1.
          unfold mbind, M_bind at 1. unfold lift at 1. rewrite Hin1.
          unfold mbind, M_bind at 1. rewrite H2.
          unfold mbind, M_bind at 1. unfold lift at 1. rewrite Hin2.
          unfold mbind, M_bind at 1. unfold lift at 1. by rewrite Hget. }
        split; rewrite ?Hitem, ?Hrev; simpl; try discriminate; try lia.
        -- reflexivity.
        -- by repeat constructor.
        -- intros e [= <-]. by left.
    + assert (Hitem : review_item L C O item (comments, skipped) w
                      = (Ok (comments, skipped ++ [filename item]), extend w [call; call])).
      { rewrite Hbody. unfold mbind, M_bind at 1. rewrite H1.
        unfold mbind, M_bind at 1. unfold lift at 1. rewrite Hin1.
        unfold mbind, M_bind at 1. rewrite H2.
        unfold mbind, M_bind at 1. unfold lift at 1. by rewrite Hin2. }
      split; rewrite ?Hitem, ?Hrev, ?Hhas; simpl; try discriminate; try lia.
      * reflexivity.
      * by repeat constructor.
      * intros acc' [= <-]. exists [], [filename item].
        rewrite List.app_nil_r. auto.
    + assert (He : e = TypeError).
      { destruct r2; simpl in Hin2; congruence. }
      subst e.
      assert (Hitem : review_item L C O item (comments, skipped) w
                      = (Raise TypeError, extend w [call; call])).
      { rewrite Hbody. unfold mbind, M_bind at 1. rewrite H1.
        unfold mbind, M_bind at 1. unfold lift at 1. rewrite Hin1.
        unfold mbind, M_bind at 1. rewrite H2.
        unfold mbind, M_bind at 1. unfold lift at 1. by rewrite Hin2. }
      split; rewrite ?Hitem, ?Hrev; simpl; try discriminate; try lia.
      * reflexivity.
      * by repeat constructor.
      * intros e [= <-]. by left.
  - assert (He : e = TypeError).
    { destruct r1; simpl in Hin1; congruence. }
    subst e. exists [call].
    assert (Hitem : review_item L C O item (comments, skipped) w
                    = (Raise TypeError, extend w [call])).
    { rewrite Hbody. unfold mbind, M_bind at 1. rewrite H1.
      unfold mbind, M_bind at 1. unfold lift at 1. by rewrite Hin1. }
    split; rewrite ?Hitem, ?Hrev; simpl; try discriminate; try lia.
    + reflexivity.
    + by constructor.
    + intros e [= <-]. by left.
Qed.


Lemma chat_calls_extend (w : world) (key : option string)
    (changed : list ChangedFile) (calls : list event) :
  Forall (request_for C key changed) calls ->
  chat_calls (extend w calls) = (chat_calls w + List.length calls)%nat.
Proof.
  intros Hall. unfold chat_calls, extend. simpl.
  rewrite List.filter_app, List.length_app. f_equal.
  induction Hall as [| ev calls (item & p & _ & _ & _ & ->) _ IH]; [reflexivity |].
  simpl. by rewrite IH.
Qed.

(** The whole loop: the calls it adds, how it may end, what it appends. *)
Lemma review_items_effect
    (changed : list ChangedFile) (acc : list string * list string) (w : world) :
  exists calls,
    snd (review_items L C O changed acc w) = extend w calls /\
    Forall (request_for C (api_key w) changed) calls /\
    (List.length calls <= 2 * List.length (List.filter (is_reviewable C) changed))%nat /\
    (forall e, fst (review_items L C O changed acc w) = Raise e ->
               e = TypeError \/ e = OpenAIError) /\
    (forall acc', fst (review_items L C O changed acc w) = Ok acc' ->
       (List.length (List.filter (is_reviewable C) changed) <= List.length calls)%nat /\
       exists batches names,
         acc' = (fst acc ++ batches, snd acc ++ names) /\
         (List.length batches + List.length names
          = List.length (List.filter has_patch changed))%nat /\
         names `sublist_of` (filename <$> changed)).
Proof.
  revert acc w. induction changed as [| item rest IH]; intros acc w.
  - exists []. simpl. split; [symmetry; apply extend_nil |].
    split; [constructor |]. split; [lia |]. split; [discriminate |].
    intros acc' [= <-]. split; [lia |]. exists [], [].
    destruct acc. simpl. rewrite !List.app_nil_r. auto using sublist_nil_l.
  - destruct (review_item_effect item acc w) as [calls1 [Hw1 Hreq1 Hmost1 Hleast1 Hraise1 Happ1]].
    rewrite review_items_cons.
    assert (Hreq1' : Forall (request_for C (api_key w) (item :: rest)) calls1).
    { eapply Forall_impl; [exact Hreq1 |]. intros ev. apply request_for_weaken.
      intros x Hx. apply list_elem_of_singleton in Hx as ->. apply elem_of_cons. by left. }
    destruct (review_item L C O item acc w) as [[acc1 | e1] w1]; cbn [fst snd] in *.
    2:{ exists calls1. split; [exact Hw1 |]. split; [exact Hreq1' |].
        split; [| split; [| discriminate]].
        - simpl. destruct (is_reviewable C item); simpl; lia.
        - intros e [= <-]. by apply Hraise1. }
    subst w1.
    destruct (IH acc1 (extend w calls1)) as (calls2 & Hw2 & Hreq2 & Hmost2 & Hraise2 & Hok2).
    change (api_key (extend w calls1)) with (api_key w) in Hreq2.
    exists (calls1 ++ calls2). rewrite Hw2, extend_extend.
    split; [reflexivity |]. split.
    { apply Forall_app. split; [exact Hreq1' |].
      eapply Forall_impl; [exact Hreq2 |]. intros ev. apply request_for_weaken.
      intros x Hx. apply elem_of_cons. by right. }
    specialize (Hleast1 acc1 eq_refl).
    destruct (Happ1 acc1 eq_refl) as (b1 & n1 & -> & Hcount1 & Hname1).
    split.
    { rewrite List.length_app. simpl.
      destruct (is_reviewable C item); simpl in *; lia. }
    split; [exact Hraise2 |].
    intros acc' Hacc'. destruct (Hok2 acc' Hacc') as (Hleast2 & b2 & n2 & -> & Hcount2 & Hsub2).
    split.
    { rewrite List.length_app. simpl.
      destruct (is_reviewable C item); simpl in *; lia. }
    exists (b1 ++ b2), (n1 ++ n2). cbn [fst snd]. rewrite !List.app_assoc.
    split; [reflexivity |]. split.
    { rewrite !List.length_app. simpl.
      destruct (has_patch item); simpl in *; lia. }
    rewrite fmap_cons.
    destruct Hname1 as [-> | ->]; simpl.
    + by apply sublist_cons.
    + by apply sublist_skip.
Qed.

(** The loop talks to the completion endpoint only: every call it adds is
    a request, under the key in force, for a file of the list whose patch
    is within the limit, and its user message is that file's name and
    patch.  No patch over the limit is sent and nothing is posted to the
    hosting platform, however the loop ends. *)
Theorem loop_only_requests_reviewable_files
    (changed : list ChangedFile) (acc : list string * list string) (w : world) :
  exists calls,
    snd (review_items L C O changed acc w) = extend w calls /\
    Forall (request_for C (api_key w) changed) calls.
Proof.
  destruct (review_items_effect changed acc w) as (calls & Hw & Hreq & _).
  by exists calls.
Qed.

(** The call budget of the loop: never more than two completion calls per
    reviewable file, and, when the loop runs to its end, at least one. *)
Theorem loop_call_budget
    (changed : list ChangedFile) (acc : list string * list string) (w : world) :
  (chat_calls (snd (review_items L C O changed acc w))
   <= chat_calls w + 2 * List.length (List.filter (is_reviewable C) changed))%nat /\
  (forall acc', fst (review_items L C O changed acc w) = Ok acc' ->
     (chat_calls w + List.length (List.filter (is_reviewable C) changed)
      <= chat_calls (snd (review_items L C O changed acc w)))%nat).
Proof.
  destruct (review_items_effect changed acc w) as (calls & Hw & Hreq & Hmost & _ & Hok).
  rewrite Hw, (chat_calls_extend w _ _ _ Hreq). split; [lia |].
  intros acc' Hacc'. destruct (Hok acc' Hacc') as [Hleast _]. lia.
Qed.

(** The loop lets two exceptions through and no other: TypeError, from an
    answer that is not a dict, and an openai error that is not an
    APIError.  In particular the lookup [diff_comment["comments"]] never
    raises KeyError. *)
Theorem loop_raises_only_type_or_openai_error
    (changed : list ChangedFile) (acc : list string * list string) (w : world) (e : exn) :
  fst (review_items L C O changed acc w) = Raise e ->
  e = TypeError \/ e = OpenAIError.
Proof.
  destruct (review_items_effect changed acc w) as (calls & _ & _ & _ & Hraise & _).
  apply Hraise.
Qed.

(** When the loop runs to its end, every file with a patch has added
    exactly one entry, a batch of comments or a name in the skip list, and
    the skip list names changed files in the order they were processed. *)
Theorem loop_accumulates_in_order
    (changed : list ChangedFile) (w : world) (comments skipped : list string) :
  fst (review_items L C O changed ([], []) w) = Ok (comments, skipped) ->
  (List.length comments + List.length skipped
   = List.length (List.filter has_patch changed))%nat /\
  skipped `sublist_of` (filename <$> changed).
Proof.
  intros Hrun.
  destruct (review_items_effect changed ([], []) w) as (calls & _ & _ & _ & _ & Hok).
  destruct (Hok _ Hrun) as (_ & batches & names & Heq & Hcount & Hsub).
  simpl in Heq. injection Heq as -> ->. auto.
Qed.


(** ** The submission, whatever the platform answers *)

(** [submit_review] posts one review or nothing.  When it raises, the
    world is as it was: no review was posted.  When it returns, exactly
    one review was posted, with the event ["COMMENT"], a body that starts
    with the fixed sentence (and is that sentence when nothing was
    skipped), and the comments of the first batch alone. *)
Theorem submit_review_posts_once_or_nothing
    (comments : list string) (p : PullRequest) (skipped : list string) (w : world) :
  (exists e, submit_review L O comments p skipped w = (Raise e, w)) \/
  (exists body first others items,
      comments = first :: others /\
      flatten_batches L [first] = Ok items /\
      submit_review L O comments p skipped w
      = (Ok tt, extend w [CreateReview body "COMMENT" items]) /\
      is_prefix fixed_body body = true /\
      (skipped = [] -> body = fixed_body)).
Proof.
  unfold submit_review.
  destruct (getenv_truthy O "GITHUB_TOKEN") as [tok |]; [| left; by eexists].
  destruct comments as [| first others]; [left; by eexists |].
  unfold mbind, M_bind, lift, list_getitem. simpl.
  destruct (ast_literal_eval L first) as [evaluated | e] eqn:Heval; [| left; by eexists].
  destruct (py_iter evaluated) as [items | e] eqn:Hiter; [| left; by eexists].
  right.
  set (body := match skipped with [] => _ | _ :: _ => _ end).
  exists body, first, others, items.
  split; [reflexivity |]. split; [simpl; by rewrite Heval, Hiter, List.app_nil_r |]. split.
  - unfold try_except, PullRequest_create_review, emit, mbind, M_bind, mret, M_ret, raise.
    by destruct (accepts_review p body "COMMENT" items).
  - subst body. by destruct skipped.
Qed.

(** A review that the platform rejects is not an error for the caller:
    what [submit_review] returns, and what it has sent, do not depend on
    the platform's answer. *)
Theorem submit_review_ignores_rejection
    (comments skipped : list string) (w : world)
    (n : Z) (changed : list ChangedFile)
    (verdict verdict' : string -> string -> list value -> bool) :
  submit_review L O comments
    {| number := n; files := changed; accepts_review := verdict |} skipped w
  = submit_review L O comments
      {| number := n; files := changed; accepts_review := verdict' |} skipped w.
Proof.
  unfold submit_review.
  destruct (getenv_truthy O "GITHUB_TOKEN") as [tok |]; [| reflexivity].
  unfold mbind, M_bind, lift. destruct (list_getitem comments 0) as [first | e]; [| reflexivity].
  destruct (ast_literal_eval L first) as [evaluated | e]; [| reflexivity].
  destruct (py_iter evaluated) as [items | e]; [| reflexivity].
  unfold try_except, PullRequest_create_review, emit, mbind, M_bind, mret, M_ret, raise.
  simpl. by destruct (verdict _ _ items), (verdict' _ _ items).
Qed.

(** ** The pull request reference *)

Lemma str_split_free (sep : ascii) (a rest : string) :
  free_of sep a = true ->
  str_split sep (a +:+ String sep rest) = a :: str_split sep rest.
Proof.
  induction a as [| c a IH]; simpl; intros Hfree.
  - by rewrite Ascii.eqb_refl.
  - apply andb_true_iff in Hfree as [Hc Hfree].
    apply negb_true_iff in Hc. rewrite Hc, (IH Hfree). reflexivity.
Qed.

Lemma str_split_free_whole (sep : ascii) (a : string) :
  free_of sep a = true -> str_split sep a = [a].
Proof.
  induction a as [| c a IH]; simpl; intros Hfree; [reflexivity |].
  apply andb_true_iff in Hfree as [Hc Hfree].
  apply negb_true_iff in Hc. rewrite Hc, (IH Hfree). reflexivity.
Qed.

(** [get_repo_and_pr] reads the environment and nothing else: when it
    returns, the world is unchanged, each of the two lists holds exactly
    one element (so the two [[0]] lookups of [do_code_review] cannot
    fail), the repository is GITHUB_REPOSITORY and the pull request
    number is [int] of the third segment of GITHUB_REF. *)
Theorem get_repo_and_pr_returns_singletons (w w' : world) (rp : repo_and_pr) :
  get_repo_and_pr L O w = (Ok rp, w') ->
  w' = w /\
  exists (ref repository segment : string) (n : Z),
    getenv_truthy O "GITHUB_REF" = Some ref /\
    getenv_truthy O "GITHUB_REPOSITORY" = Some repository /\
    str_split "/" ref !! 2%nat = Some segment /\
    py_int L segment = Some n /\
    rp = {| repo := [repository]; pr := [n] |}.
Proof.
  unfold get_repo_and_pr, mbind, M_bind, mret, M_ret, raise, lift, list_getitem.
  destruct (getenv_truthy O "GITHUB_REF") as [ref |]; [| discriminate].
  destruct (getenv_truthy O "GITHUB_REPOSITORY") as [repository |]; [| discriminate].
  destruct (str_split "/" ref !! 2%nat) as [segment |] eqn:Hseg; [| discriminate].
  destruct (py_int L segment) as [n |] eqn:Hint; [| discriminate].
  intros [= <- <-]. split; [reflexivity |].
  exists ref, repository, segment, n. auto.
Qed.

(** For a reference of the shape [a/b/segment] or [a/b/segment/...], as
    GitHub sets it for a pull request ([refs/pull/<number>/merge]), the
    pull request number is [int(segment)], whatever follows the third
    segment. *)
Theorem get_repo_and_pr_reads_third_segment
    (a b segment tail repository : string) (n : Z) (w : world) :
  free_of "/" a = true -> free_of "/" b = true -> free_of "/" segment = true ->
  tail = EmptyString \/ (exists rest, tail = String "/" rest) ->
  getenv_truthy O "GITHUB_REF"
  = Some (a +:+ String "/" (b +:+ String "/" (segment +:+ tail))) ->
  getenv_truthy O "GITHUB_REPOSITORY" = Some repository ->
  py_int L segment = Some n ->
  get_repo_and_pr L O w = (Ok {| repo := [repository]; pr := [n] |}, w).
Proof.
  intros Ha Hb Hseg Htail Href Hrepo Hint.
  assert (Hthird : str_split "/" (a +:+ String "/" (b +:+ String "/" (segment +:+ tail)))
                   !! 2%nat = Some segment).
  { rewrite (str_split_free _ _ _ Ha), (str_split_free _ _ _ Hb).
    destruct Htail as [-> | [rest ->]].
    - assert (Hnil : segment +:+ EmptyString = segment).
      { clear. induction segment as [| c s IH]; [done |].
        change (String c (s +:+ EmptyString) = String c s). by f_equal. }
      rewrite Hnil, (str_split_free_whole _ _ Hseg). reflexivity.
    - rewrite (str_split_free _ _ _ Hseg). reflexivity. }
  unfold get_repo_and_pr, mbind, M_bind, mret, M_ret, lift, list_getitem.
  rewrite Href, Hrepo, Hthird, Hint. reflexivity.
Qed.


(** ** The whole run *)

(** How [main] gets to [do_code_review]: it stops at a missing variable,
    or on a malformed GITHUB_REF, or hands over the token, the repository
    name and the pull request number with the key set and nothing sent. *)
Lemma run_cases :
  (fst (run L C O) = Raise (SystemExit 1) /\ trace (snd (run L C O)) = [] /\
   exists k, k ∈ required_variables /\ getenv_truthy O k = None) \/
  (exists e, fst (run L C O) = Raise e /\ trace (snd (run L C O)) = [] /\
             (e = IndexError \/ e = ValueError)) \/
  (exists key tok repository n,
      getenv_truthy O "OPENAI_API_KEY" = Some key /\
      getenv_truthy O "GITHUB_TOKEN" = Some tok /\
      getenv_truthy O "GITHUB_REPOSITORY" = Some repository /\
      run L C O
      = do_code_review L C O {| token := tok |} {| repo := [repository]; pr := [n] |}
          (started key)).
Proof.
  unfold run, main, set_openai_key, get_github_session, get_repo_and_pr.
  unfold mbind, M_bind, mret, M_ret, raise, lift, list_getitem.
  destruct (getenv_truthy O "OPENAI_API_KEY") as [key |] eqn:Ekey.
  2:{ left. simpl. repeat split. exists "OPENAI_API_KEY". split; [| done].
      unfold required_variables. set_solver. }
  destruct (getenv_truthy O "GITHUB_TOKEN") as [tok |] eqn:Etok.
  2:{ left. simpl. repeat split. exists "GITHUB_TOKEN". split; [| done].
      unfold required_variables. set_solver. }
  destruct (getenv_truthy O "GITHUB_REF") as [ref |] eqn:Eref.
  2:{ left. simpl. repeat split. exists "GITHUB_REF". split; [| done].
      unfold required_variables. set_solver. }
  destruct (getenv_truthy O "GITHUB_REPOSITORY") as [repository |] eqn:Erepo.
  2:{ left. simpl. repeat split. exists "GITHUB_REPOSITORY". split; [| done].
      unfold required_variables. set_solver. }
  right. simpl.
  destruct (str_split "/" ref !! 2%nat) as [segment |]; simpl.
  2:{ left. exists IndexError. auto. }
  destruct (py_int L segment) as [n |]; simpl.
  2:{ left. exists ValueError. auto. }
  right. exists key, tok, repository, n. auto.
Qed.

(** [do_code_review], step by step. *)
Lemma do_code_review_steps (tok repository : string) (n : Z) (w : world) :
  do_code_review L C O {| token := tok |} {| repo := [repository]; pr := [n] |} w
  = match github O tok repository with
    | None => (Raise GithubException, extend w [GetRepo tok repository])
    | Some r =>
        match pulls r n with
        | None => (Raise GithubException, extend w [GetRepo tok repository; GetPull n])
        | Some p =>
            match review_items L C O (files p) ([], [])
                    (extend w [GetRepo tok repository; GetPull n; GetFiles]) with
            | (Ok acc, w') => submit_review L O (fst acc) p (snd acc) w'
            | (Raise e, w') => (Raise e, w')
            end
        end
    end.
Proof.
  unfold do_code_review, Github_get_repo, Repository_get_pull, PullRequest_get_files.
  unfold mbind, M_bind, mret, M_ret, raise, lift, list_getitem, emit, extend. simpl.
  destruct (github O tok repository) as [r |]; [| reflexivity].
  destruct (pulls r n) as [p |]; cbn [trace api_key];
    by rewrite <- !(List.app_assoc (trace w)).
Qed.

Lemma submitted_comments_extend (w : world) (key : option string)
    (changed : list ChangedFile) (calls : list event) :
  Forall (request_for C key changed) calls ->
  submitted_comments (extend w calls) = submitted_comments w.
Proof.
  intros Hall. unfold submitted_comments, extend. simpl. rewrite omap_app.
  assert (Hnone : omap (fun ev => match ev with
                                  | CreateReview _ _ cs => Some cs
                                  | _ => None
                                  end) calls = []).
  { induction Hall as [| ev calls (item & p & _ & _ & _ & ->) _ IH]; [reflexivity |].
    simpl. exact IH. }
  rewrite Hnone. apply List.app_nil_r.
Qed.

(** What [submit_review] may raise once the token is there. *)
Lemma submit_review_raises
    (comments : list string) (p : PullRequest) (skipped : list string) (w : world) (e : exn) :
  is_Some (getenv_truthy O "GITHUB_TOKEN") ->
  fst (submit_review L O comments p skipped w) = Raise e ->
  e = IndexError \/ e = TypeError \/ exists text, ast_literal_eval L text = Raise e.
Proof.
  intros [tok Htok]. unfold submit_review. rewrite Htok.
  unfold mbind, M_bind, lift, list_getitem.
  destruct comments as [| first others]; simpl; [intros [= <-]; auto |].
  destruct (ast_literal_eval L first) as [evaluated | e0] eqn:Heval; simpl.
  2:{ intros [= <-]. right. right. by exists first. }
  destruct evaluated; simpl; try (intros [= <-]; auto);
    unfold try_except, PullRequest_create_review, emit, mbind, M_bind, mret, M_ret, raise;
    simpl; match goal with |- context [accepts_review ?a ?b ?c ?d] =>
                           destruct (accepts_review a b c d) end; discriminate.
Qed.

(** What [submit_review] does to the world: at most one call, a review. *)
Lemma submit_review_world
    (comments : list string) (p : PullRequest) (skipped : list string) (w : world) :
  snd (submit_review L O comments p skipped w) = w \/
  exists body ev items,
    snd (submit_review L O comments p skipped w) = extend w [CreateReview body ev items].
Proof.
  unfold submit_review.
  destruct (getenv_truthy O "GITHUB_TOKEN") as [tok |]; [| by left].
  unfold mbind, M_bind, lift, list_getitem.
  destruct comments as [| first others]; simpl; [by left |].
  destruct (ast_literal_eval L first) as [evaluated | e0]; simpl; [| by left].
  destruct (py_iter evaluated) as [items | e0]; simpl; [| by left].
  right. unfold try_except, PullRequest_create_review, emit, mbind, M_bind, mret, M_ret, raise.
  simpl. match goal with |- context [accepts_review ?a ?b ?c ?d] =>
                         destruct (accepts_review a b c d) end; simpl; eauto.
Qed.


Lemma run_startup (key tok : string) (rp : repo_and_pr) :
  getenv_truthy O "OPENAI_API_KEY" = Some key ->
  getenv_truthy O "GITHUB_TOKEN" = Some tok ->
  get_repo_and_pr L O (started key) = (Ok rp, started key) ->
  run L C O = do_code_review L C O {| token := tok |} rp (started key).
Proof.
  intros Hkey Htok Hrp.
  unfold run, main, set_openai_key, get_github_session.
  rewrite Hkey, Htok. unfold mbind, M_bind, mret, M_ret. simpl.
  fold (started key). by rewrite Hrp.
Qed.

Lemma request_carries_key (key : string) (changed : list ChangedFile) (ev : event) :
  request_for C (Some key) changed ev -> carries_key key ev.
Proof. by intros (item & p & _ & _ & _ & ->). Qed.

(** The loop on files that are not reviewable: no call, no comment. *)
Lemma review_items_nothing_reviewable
    (changed : list ChangedFile) (acc : list string * list string) (w : world) :
  Forall (fun f => is_reviewable C f = false) changed ->
  exists names, review_items L C O changed acc w = (Ok (fst acc, snd acc ++ names), w).
Proof.
  intros Hall. revert acc. induction Hall as [| item rest Hitem _ IH]; intros acc.
  - exists []. destruct acc. simpl. by rewrite List.app_nil_r.
  - rewrite review_items_cons. unfold is_reviewable in Hitem.
    destruct (patch item) as [p |] eqn:Hp.
    + apply negb_false_iff in Hitem.
      rewrite (review_item_too_large item p acc w Hp)
        by (apply Z.gtb_lt in Hitem; lia).
      destruct (IH (fst acc, snd acc ++ [filename item])) as [names Hrest].
      exists (filename item :: names). rewrite Hrest. simpl.
      by rewrite <- List.app_assoc.
    + assert (Hsame : review_item L C O item acc w = (Ok acc, w)).
      { unfold review_item. destruct acc. simpl. by rewrite Hp. }
      rewrite Hsame. destruct (IH acc) as [names Hrest]. by exists names.
Qed.

(** The process leaves through [SystemExit] exactly when one of the four
    variables is unset or empty, and the code is then 1: nothing else in
    the script exits cleanly, given that [ast.literal_eval] does not raise
    [SystemExit] itself. *)
Theorem clean_exit_iff_variable_missing (code : Z) :
  (forall text c, ast_literal_eval L text <> Raise (SystemExit c)) ->
  fst (run L C O) = Raise (SystemExit code) <->
  code = 1 /\ exists k, k ∈ required_variables /\ getenv_truthy O k = None.
Proof.
  intros Hlit. split.
  - intros Hrun.
    destruct run_cases as [(Hexit & _ & Hk) | [(e & He & _ & Hshape) | Hgo]].
    + rewrite Hexit in Hrun. by injection Hrun as <-.
    + rewrite He in Hrun. injection Hrun as ->. destruct Hshape; discriminate.
    + exfalso. destruct Hgo as (key & tok & repository & n & _ & Htok & _ & Heq).
      rewrite Heq, do_code_review_steps in Hrun.
      destruct (github O tok repository) as [r |]; [| discriminate].
      destruct (pulls r n) as [p |]; [| discriminate].
      set (w3 := extend (started key) _) in Hrun.
      destruct (review_items_effect (files p) ([], []) w3) as (_ & _ & _ & _ & Hraise & _).
      destruct (review_items L C O (files p) ([], []) w3) as [[acc | e] w4];
        cbn [fst] in *.
      * apply submit_review_raises in Hrun; [| by rewrite Htok].
        destruct Hrun as [? | [? | [text Htext]]]; try discriminate.
        by apply Hlit in Htext.
      * injection Hrun as ->. destruct (Hraise _ eq_refl); discriminate.
  - intros [-> (k & Hk & Hnone)].
    by destruct (main_stops_at_first_missing k Hk Hnone).
Qed.

(** Every completion request of a run is made under the key taken from
    OPENAI_API_KEY at start-up. *)
Theorem run_requests_carry_configured_key (key : string) :
  getenv_truthy O "OPENAI_API_KEY" = Some key ->
  Forall (carries_key key) (trace (snd (run L C O))).
Proof.
  intros Hkey.
  destruct run_cases as [(_ & Htrace & _) | [(e & _ & Htrace & _) | Hgo]];
    try (rewrite Htrace; constructor).
  destruct Hgo as (key' & tok & repository & n & Hkey' & _ & _ & Heq).
  rewrite Hkey in Hkey'. injection Hkey' as <-.
  rewrite Heq, do_code_review_steps.
  destruct (github O tok repository) as [r |]; [| by repeat constructor].
  destruct (pulls r n) as [p |]; [| by repeat constructor].
  set (w3 := extend (started key) _).
  assert (H3 : Forall (carries_key key) (trace w3)) by (by repeat constructor).
  destruct (review_items_effect (files p) ([], []) w3) as (calls & Hw & Hreq & _).
  assert (H4 : Forall (carries_key key) (trace (extend w3 calls))).
  { change (trace (extend w3 calls)) with (trace w3 ++ calls).
    apply Forall_app. split; [exact H3 |].
    eapply Forall_impl; [exact Hreq |]. intros ev. apply request_carries_key. }
  destruct (review_items L C O (files p) ([], []) w3) as [[acc | e] w4];
    cbn [snd] in Hw; subst w4; [| exact H4].
  destruct (submit_review_world (fst acc) p (snd acc) (extend w3 calls))
    as [-> | (body & ev & items & ->)]; [exact H4 |].
  change (trace (extend (extend w3 calls) [CreateReview body ev items]))
    with (trace (extend w3 calls) ++ [CreateReview body ev items]).
  apply Forall_app. split; [exact H4 |]. by repeat constructor.
Qed.

(** When the repository or the pull request cannot be fetched, the run
    ends with the GithubException of the lookup (exit status 1): nothing
    has been sent to the completion endpoint and no review is posted. *)
Theorem lookup_failure_stops_before_review
    (key tok repository : string) (n : Z) :
  getenv_truthy O "OPENAI_API_KEY" = Some key ->
  getenv_truthy O "GITHUB_TOKEN" = Some tok ->
  get_repo_and_pr L O (started key)
  = (Ok {| repo := [repository]; pr := [n] |}, started key) ->
  github O tok repository = None \/
  (exists r, github O tok repository = Some r /\ pulls r n = None) ->
  fst (run L C O) = Raise GithubException /\
  exit_status (fst (run L C O)) = 1 /\
  chat_calls (snd (run L C O)) = 0%nat /\
  submitted_comments (snd (run L C O)) = [].
Proof.
  intros Hkey Htok Hrp Hfail.
  rewrite (run_startup key tok _ Hkey Htok Hrp), do_code_review_steps.
  destruct Hfail as [-> | (r & -> & ->)]; done.
Qed.

(** A pull request without any reviewable file (no changed file at all,
    or only files without a patch or over the limit) makes the run end
    with IndexError, exit status 1: the three lookups are the only calls
    made, and no review is posted. *)
Theorem run_without_reviewable_file_raises
    (key tok repository : string) (n : Z) (r : Repository) (p : PullRequest) :
  getenv_truthy O "OPENAI_API_KEY" = Some key ->
  getenv_truthy O "GITHUB_TOKEN" = Some tok ->
  get_repo_and_pr L O (started key)
  = (Ok {| repo := [repository]; pr := [n] |}, started key) ->
  github O tok repository = Some r ->
  pulls r n = Some p ->
  Forall (fun f => is_reviewable C f = false) (files p) ->
  run L C O
  = (Raise IndexError,
     extend (started key) [GetRepo tok repository; GetPull n; GetFiles]) /\
  exit_status (fst (run L C O)) = 1.
Proof.
  intros Hkey Htok Hrp Hrepo Hpull Hnone.
  assert (Hrun : run L C O
                 = (Raise IndexError,
                    extend (started key) [GetRepo tok repository; GetPull n; GetFiles])).
  { rewrite (run_startup key tok _ Hkey Htok Hrp), do_code_review_steps, Hrepo, Hpull.
    destruct (review_items_nothing_reviewable (files p) ([], [])
                (extend (started key) [GetRepo tok repository; GetPull n; GetFiles]) Hnone)
      as [names ->].
    cbn [fst snd]. apply submit_review_no_batch. by rewrite Htok. }
  by rewrite Hrun.
Qed.

(** A run in which the loop ends with at least one batch whose first one
    deserialises: the process exits with status 0 and exactly one review
    has been posted, carrying the comments of that first batch. *)
Theorem run_posts_first_batch_and_exits_0
    (key tok repository : string) (n : Z) (r : Repository) (p : PullRequest)
    (first : string) (others skipped : list string) (w' : world) (items : list value) :
  getenv_truthy O "OPENAI_API_KEY" = Some key ->
  getenv_truthy O "GITHUB_TOKEN" = Some tok ->
  get_repo_and_pr L O (started key)
  = (Ok {| repo := [repository]; pr := [n] |}, started key) ->
  github O tok repository = Some r ->
  pulls r n = Some p ->
  review_items L C O (files p) ([], [])
    (extend (started key) [GetRepo tok repository; GetPull n; GetFiles])
  = (Ok (first :: others, skipped), w') ->
  flatten_batches L [first] = Ok items ->
  fst (run L C O) = Ok tt /\
  exit_status (fst (run L C O)) = 0 /\
  submitted_comments (snd (run L C O)) = [items].
Proof.
  intros Hkey Htok Hrp Hrepo Hpull Hloop Hflat.
  set (w3 := extend (started key) [GetRepo tok repository; GetPull n; GetFiles]) in *.
  assert (Hrun : run L C O = submit_review L O [first] p skipped w').
  { rewrite (run_startup key tok _ Hkey Htok Hrp), do_code_review_steps, Hrepo, Hpull.
    fold w3. rewrite Hloop. cbn [fst snd].
    apply submit_review_reads_first_batch_only. }
  destruct (submit_review_single_batch first p skipped w' items) as [Hok Hposted];
    [by rewrite Htok | exact Hflat |].
  rewrite Hrun, Hok, Hposted. split; [done |]. split; [done |].
  destruct (review_items_effect (files p) ([], []) w3) as (calls & Hw & Hreq & _).
  rewrite Hloop in Hw. cbn [snd] in Hw. subst w'.
  by rewrite (submitted_comments_extend _ _ _ _ Hreq).
Qed.

End Properties.

(** * The properties on the sample runs *)

Section SampleRuns.

Import Scenario.

Lemma submit_to_gpt_failure_is_empty_dict_witness :
  (openai_chat unreachable [] (chat_request constants code_a)
     = APIError "The server is overloaded" /\
   fst (submit_to_gpt lib constants unreachable code_a initial_world) = Ok (VDict [])) /\
  (json_loads lib "I cannot review this diff." = None /\
   fst (submit_to_gpt lib constants unanswered code_a initial_world) = Ok (VDict [])).
Proof.
  split; (split; [reflexivity |]).
  - apply (submit_to_gpt_failure_is_empty_dict lib constants unreachable code_a initial_world).
    left. eexists. reflexivity.
  - apply (submit_to_gpt_failure_is_empty_dict lib constants unanswered code_a initial_world).
    right. do 2 eexists. split; reflexivity.
Defined.

Lemma absent_patch_never_requested_witness :
  patch b_py_binary = None /\
  review_item lib constants mixed b_py_binary (["[]"], ["z.py"]) initial_world
  = (Ok (["[]"], ["z.py"]), initial_world).
Proof.
  split; [reflexivity |].
  apply (absent_patch_never_requested lib constants mixed b_py_binary
           (["[]"], ["z.py"]) initial_world).
  reflexivity.
Defined.

Lemma patch_reviewable_iff_within_limit_witness :
  (patch a_py = Some "+x = 1" /\
   (chat_calls initial_world
    < chat_calls (snd (review_item lib constants mixed a_py ([], []) initial_world)))%nat) /\
  (patch c_py_large = Some "+0123456789012345678901234567890" /\
   review_item lib constants mixed c_py_large ([], []) initial_world
   = (Ok ([], ["c.py"]), initial_world)).
Proof.
  split; (split; [reflexivity |]).
  - apply (patch_reviewable_iff_within_limit lib constants mixed a_py "+x = 1"
             ([], []) initial_world eq_refl).
    vm_compute. discriminate.
  - apply (patch_reviewable_iff_within_limit lib constants mixed c_py_large
             "+0123456789012345678901234567890" ([], []) initial_world eq_refl).
    reflexivity.
Defined.

Lemma two_failures_two_calls_then_skip_witness :
  review_item lib constants unanswered a_py ([], []) initial_world
  = (Ok ([], ["a.py"]), after_two_calls unanswered) /\
  chat_calls (after_two_calls unanswered) = 2%nat.
Proof.
  destruct (two_failures_two_calls_then_skip lib constants unanswered a_py "+x = 1"
              ([], []) initial_world (after_one_call unanswered)
              (after_two_calls unanswered) (VDict []) (VDict []) [])
    as (Hitem & _ & Hcalls & _); try reflexivity.
  - vm_compute. discriminate.
  - split; [exact Hitem | exact Hcalls].
Defined.

Lemma failure_then_success_appends_comments_witness :
  review_item lib constants answered_on_retry a_py ([], []) initial_world
  = (Ok ([Reference.dumps (VList [comment_a])], []), after_two_calls answered_on_retry) /\
  chat_calls (after_two_calls answered_on_retry) = 2%nat.
Proof.
  destruct (failure_then_success_appends_comments lib constants answered_on_retry
              a_py "+x = 1" ([], []) initial_world (after_one_call answered_on_retry)
              (after_two_calls answered_on_retry)
              (VDict []) (review_of [comment_a]) (VList [comment_a]) [])
    as (Hitem & _ & Hcalls & _); try reflexivity.
  - vm_compute. discriminate.
  - eexists. split; reflexivity.
  - split; [exact Hitem | exact Hcalls].
Defined.

Lemma missing_variable_exits_1_before_any_call_witness :
  environ no_repository !! "GITHUB_REPOSITORY" = None /\
  fst (run lib constants no_repository) = Raise (SystemExit 1) /\
  exit_status (fst (run lib constants no_repository)) = 1 /\
  trace (snd (run lib constants no_repository)) = [].
Proof.
  split; [reflexivity |].
  apply (missing_variable_exits_1_before_any_call lib constants no_repository
           "GITHUB_REPOSITORY").
  - unfold required_variables. set_solver.
  - reflexivity.
Defined.

(** GITHUB_REF is set and has no third segment, and the function leaves
    through [SystemExit(1)], not through IndexError or ValueError: once
    with GITHUB_REPOSITORY unset, once with GITHUB_REF set to the empty
    string. *)
Lemma ref_without_third_segment_exits_1 :
  (environ no_repository !! "GITHUB_REF" = Some "refs/heads" /\
   str_split "/" "refs/heads" !! 2%nat = None /\
   get_repo_and_pr lib no_repository initial_world
   = (Raise (SystemExit 1), initial_world)) /\
  (environ empty_ref !! "GITHUB_REF" = Some EmptyString /\
   environ empty_ref !! "GITHUB_REPOSITORY" = Some "octo/demo" /\
   str_split "/" EmptyString !! 2%nat = None /\
   get_repo_and_pr lib empty_ref initial_world
   = (Raise (SystemExit 1), initial_world)).
Proof. repeat split. Qed.

Lemma get_repo_and_pr_failures_witness :
  getenv_truthy branch_ref "GITHUB_REF" = Some "refs/heads/main" /\
  getenv_truthy branch_ref "GITHUB_REPOSITORY" = Some "octo/demo" /\
  py_int lib "main" = None /\
  get_repo_and_pr lib branch_ref initial_world = (Raise ValueError, initial_world).
Proof.
  do 3 (split; [reflexivity |]).
  exact (proj2 (get_repo_and_pr_failures lib branch_ref initial_world)
           "refs/heads/main" "octo/demo" eq_refl eq_refl eq_refl).
Defined.

Lemma every_changed_file_has_one_outcome_witness :
  (review_items lib constants mixed [a_py; b_py_binary; c_py_large] ([], []) initial_world
   = (Ok ([Reference.dumps (VList [comment_a])], ["c.py"]), after_one_call mixed) /\
   exists tags : list Outcome,
     Forall2 (tag_fits constants) [a_py; b_py_binary; c_py_large] tags /\
     ["c.py"] = filename <$> tagged Skipped [a_py; b_py_binary; c_py_large] tags /\
     1%nat = List.length (tagged Accepted [a_py; b_py_binary; c_py_large] tags)) /\
  (review_items lib_with_empty_list constants empty_list_answered [a_py] ([], [])
     initial_world
   = (Ok ([], ["a.py"]), after_two_calls empty_list_answered) /\
   exists tags : list Outcome,
     Forall2 (tag_fits constants) [a_py] tags /\
     ["a.py"] = filename <$> tagged Skipped [a_py] tags).
Proof.
  split; (split; [reflexivity |]).
  - destruct (every_changed_file_has_one_outcome lib constants mixed
                [a_py; b_py_binary; c_py_large] initial_world (after_one_call mixed)
                [Reference.dumps (VList [comment_a])] ["c.py"] eq_refl)
      as (tags & Hfits & Hskipped & Hlen & _).
    exists tags. auto.
  - destruct (every_changed_file_has_one_outcome lib_with_empty_list constants
                empty_list_answered [a_py] initial_world
                (after_two_calls empty_list_answered) [] ["a.py"] eq_refl)
      as (tags & Hfits & Hskipped & _).
    exists tags. auto.
Defined.

(** The scenario of the specification: [a.py] is accepted, [b.py] has
    no patch, [c.py] is over the limit.  The skip list is [["c.py"]]:
    [b.py] contributed no comment and is not in it. *)
Lemma absent_patch_is_not_in_skip_list :
  fst (review_items lib constants mixed [a_py; b_py_binary; c_py_large] ([], [])
         initial_world)
  = Ok ([Reference.dumps (VList [comment_a])], ["c.py"]) /\
  patch b_py_binary = None /\
  (filename b_py_binary ∉ ["c.py"]) /\
  ["c.py"] <> ["b.py"; "c.py"].
Proof.
  split; [reflexivity |]. split; [reflexivity |]. split.
  - simpl. intros Hin. apply list_elem_of_singleton in Hin. discriminate.
  - discriminate.
Qed.

(** C1, on a run with two accepted files.  Both batches are accumulated,
    in file order, but the review that is submitted carries the comments
    of the first file only, not the concatenation of the two batches. *)
Theorem only_first_batch_is_submitted :
  fst (review_items lib constants both_answered [a_py; b_py] ([], []) initial_world)
  = Ok ([Reference.dumps (VList [comment_a]); Reference.dumps (VList [comment_b])], []) /\
  flatten_batches lib
    [Reference.dumps (VList [comment_a]); Reference.dumps (VList [comment_b])]
  = Ok [comment_a; comment_b] /\
  fst (run lib constants both_answered) = Ok tt /\
  submitted_comments (snd (run lib constants both_answered)) = [[comment_a]] /\
  [comment_a] <> [comment_a; comment_b].
Proof.
  do 4 (split; [reflexivity |]). discriminate.
Qed.

(** C3, on a run whose only file is answered with prose on both
    attempts.  The file is recorded as skipped, then [submit_review]
    indexes the empty list of batches: IndexError leaves
    [do_code_review] and [main], and the exit status is 1, not 0. *)
Theorem run_without_comments_exits_1 :
  json_loads lib "I cannot review this diff." = None /\
  fst (review_items lib constants unanswered [a_py] ([], []) initial_world)
  = Ok ([], ["a.py"]) /\
  fst (run lib constants unanswered) = Raise IndexError /\
  exit_status (fst (run lib constants unanswered)) = 1 /\
  submitted_comments (snd (run lib constants unanswered)) = [].
Proof. repeat split. Qed.


(** ** The further properties on sample runs *)

Lemma submit_to_gpt_one_call_one_exception_witness :
  fst (submit_to_gpt lib constants throttled code_a initial_world) = Raise OpenAIError /\
  chat_calls (snd (submit_to_gpt lib constants throttled code_a initial_world)) = 1%nat.
Proof.
  destruct (submit_to_gpt_one_call_one_exception lib constants throttled code_a
              initial_world) as [Hw Hraise].
  split; [reflexivity |]. by rewrite Hw.
Defined.

Lemma first_success_single_call_witness :
  review_item lib constants mixed a_py ([], []) initial_world
  = (Ok ([Reference.dumps (VList [comment_a])], []), after_one_call mixed) /\
  chat_calls (after_one_call mixed) = 1%nat.
Proof.
  destruct (first_success_single_call lib constants mixed a_py "+x = 1" ([], [])
              initial_world (after_one_call mixed)
              (review_of [comment_a]) (VList [comment_a]))
    as (Hitem & _ & Hcalls); try reflexivity.
  - vm_compute. discriminate.
  - eexists. split; reflexivity.
  - split; [exact Hitem | exact Hcalls].
Defined.

Lemma scalar_answer_raises_type_error_witness :
  submit_to_gpt lib_with_scalars constants number_answered code_a initial_world
  = (Ok (VInt 5), after_one_call number_answered) /\
  review_item lib_with_scalars constants number_answered a_py ([], []) initial_world
  = (Raise TypeError, after_one_call number_answered).
Proof.
  split; [reflexivity |].
  apply (scalar_answer_raises_type_error lib_with_scalars constants number_answered
           a_py "+x = 1" ([], []) initial_world (after_one_call number_answered) (VInt 5));
    try reflexivity.
  vm_compute. discriminate.
Defined.

Lemma non_dict_answer_with_comments_raises_witness :
  submit_to_gpt lib_with_scalars constants list_answered code_a initial_world
  = (Ok (VList [VStr "comments"]), after_one_call list_answered) /\
  review_item lib_with_scalars constants list_answered a_py ([], []) initial_world
  = (Raise TypeError, after_one_call list_answered).
Proof.
  split; [reflexivity |].
  apply (non_dict_answer_with_comments_raises lib_with_scalars constants list_answered
           a_py "+x = 1" ([], []) initial_world (after_one_call list_answered)
           (VList [VStr "comments"])); try reflexivity.
  - vm_compute. discriminate.
  - left. eexists. split; [reflexivity |]. by apply list_elem_of_singleton.
Defined.

Lemma loop_call_budget_witness :
  (chat_calls (snd (review_items lib constants unanswered [a_py] ([], []) initial_world))
   <= 2)%nat /\
  (1 <= chat_calls (snd (review_items lib constants unanswered [a_py] ([], [])
                           initial_world)))%nat.
Proof.
  destruct (loop_call_budget lib constants unanswered [a_py] ([], []) initial_world)
    as [Hmost Hleast].
  split; [exact Hmost |]. exact (Hleast ([], ["a.py"]) eq_refl).
Defined.

Lemma loop_raises_only_type_or_openai_error_witness :
  fst (review_items lib_with_scalars constants number_answered [a_py] ([], [])
         initial_world) = Raise TypeError /\
  (TypeError = TypeError \/ TypeError = OpenAIError).
Proof.
  split; [reflexivity |].
  apply (loop_raises_only_type_or_openai_error lib_with_scalars constants number_answered
           [a_py] ([], []) initial_world TypeError).
  reflexivity.
Defined.

Lemma loop_accumulates_in_order_witness :
  fst (review_items lib constants mixed [a_py; b_py_binary; c_py_large] ([], [])
         initial_world)
  = Ok ([Reference.dumps (VList [comment_a])], ["c.py"]) /\
  ["c.py"] `sublist_of` ["a.py"; "b.py"; "c.py"].
Proof.
  split; [reflexivity |].
  apply (loop_accumulates_in_order lib constants mixed [a_py; b_py_binary; c_py_large]
           initial_world [Reference.dumps (VList [comment_a])] ["c.py"]).
  reflexivity.
Defined.


Lemma get_repo_and_pr_returns_singletons_witness :
  get_repo_and_pr lib both_answered initial_world
  = (Ok {| repo := ["octo/demo"]; pr := [7] |}, initial_world) /\
  exists (ref repository segment : string) (n : Z),
    getenv_truthy both_answered "GITHUB_REF" = Some ref /\
    getenv_truthy both_answered "GITHUB_REPOSITORY" = Some repository /\
    str_split "/" ref !! 2%nat = Some segment /\
    py_int lib segment = Some n /\
    {| repo := ["octo/demo"]; pr := [7] |} = {| repo := [repository]; pr := [n] |}.
Proof.
  split; [reflexivity |].
  apply (get_repo_and_pr_returns_singletons lib both_answered initial_world initial_world).
  reflexivity.
Defined.

Lemma get_repo_and_pr_reads_third_segment_witness :
  getenv_truthy both_answered "GITHUB_REF" = Some "refs/pull/7/merge" /\
  py_int lib "7" = Some 7 /\
  get_repo_and_pr lib both_answered initial_world
  = (Ok {| repo := ["octo/demo"]; pr := [7] |}, initial_world).
Proof.
  split; [reflexivity |]. split; [reflexivity |].
  apply (get_repo_and_pr_reads_third_segment lib both_answered
           "refs" "pull" "7" "/merge" "octo/demo" 7 initial_world);
    try reflexivity.
  right. by exists "merge".
Defined.

Lemma clean_exit_iff_variable_missing_witness :
  (forall text c, ast_literal_eval lib text <> Raise (SystemExit c)) /\
  getenv_truthy no_repository "GITHUB_REPOSITORY" = None /\
  fst (run lib constants no_repository) = Raise (SystemExit 1).
Proof.
  assert (Hlit : forall text c, ast_literal_eval lib text <> Raise (SystemExit c)).
  { intros text c. simpl. unfold Reference.literal_eval_from.
    destruct (Reference.decode_from samples text) as [v |]; [| discriminate].
    destruct (Reference.python_literal v); discriminate. }
  split; [exact Hlit |]. split; [reflexivity |].
  apply (clean_exit_iff_variable_missing lib constants no_repository 1 Hlit).
  split; [reflexivity |]. exists "GITHUB_REPOSITORY". split; [| reflexivity].
  unfold required_variables. set_solver.
Defined.

Lemma run_requests_carry_configured_key_witness :
  getenv_truthy both_answered "OPENAI_API_KEY" = Some "sk-test" /\
  Forall (carries_key "sk-test") (trace (snd (run lib constants both_answered))).
Proof.
  split; [reflexivity |].
  apply (run_requests_carry_configured_key lib constants both_answered "sk-test").
  reflexivity.
Defined.

Lemma lookup_failure_stops_before_review_witness :
  github unknown_repository "ghp-test" "octo/other" = None /\
  fst (run lib constants unknown_repository) = Raise GithubException /\
  exit_status (fst (run lib constants unknown_repository)) = 1 /\
  chat_calls (snd (run lib constants unknown_repository)) = 0%nat /\
  submitted_comments (snd (run lib constants unknown_repository)) = [].
Proof.
  split; [reflexivity |].
  apply (lookup_failure_stops_before_review lib constants unknown_repository
           "sk-test" "ghp-test" "octo/other" 7); try reflexivity.
  by left.
Defined.

Lemma run_without_reviewable_file_raises_witness :
  Forall (fun f => is_reviewable constants f = false) [b_py_binary; c_py_large] /\
  run lib constants nothing_reviewable = (Raise IndexError, at_loop_start) /\
  exit_status (fst (run lib constants nothing_reviewable)) = 1.
Proof.
  assert (Hnone : Forall (fun f => is_reviewable constants f = false)
                         [b_py_binary; c_py_large]) by (by repeat constructor).
  split; [exact Hnone |].
  apply (run_without_reviewable_file_raises lib constants nothing_reviewable
           "sk-test" "ghp-test" "octo/demo" 7
           {| name := "demo";
              pulls := fun n => if n =? 7 then Some (pull_7 [b_py_binary; c_py_large])
                                else None |}
           (pull_7 [b_py_binary; c_py_large])); try reflexivity.
  exact Hnone.
Defined.

Lemma run_posts_first_batch_and_exits_0_witness :
  flatten_batches lib [Reference.dumps (VList [comment_a])] = Ok [comment_a] /\
  fst (run lib constants both_answered) = Ok tt /\
  exit_status (fst (run lib constants both_answered)) = 0 /\
  submitted_comments (snd (run lib constants both_answered)) = [[comment_a]].
Proof.
  split; [reflexivity |].
  apply (run_posts_first_batch_and_exits_0 lib constants both_answered
           "sk-test" "ghp-test" "octo/demo" 7
           {| name := "demo";
              pulls := fun n => if n =? 7 then Some (pull_7 [a_py; b_py]) else None |}
           (pull_7 [a_py; b_py])
           (Reference.dumps (VList [comment_a])) [Reference.dumps (VList [comment_b])] []
           (snd (review_items lib constants both_answered [a_py; b_py] ([], [])
                   at_loop_start))
           [comment_a]); reflexivity.
Defined.

End SampleRuns.
